(** * CoolProp configuration registry: [include/Configuration.h]

    A shallow embedding of the typed configuration cell
    ([ConfigurationItem]) and of the keyed registry ([Configuration]) of
    CoolProp, together with the properties of the registry's
    specification that can be settled on that code.

    Conventions of the embedding.
    - A C++ [int] is a [Z] inside [int_range]; a [double] is a primitive
      IEEE-754 binary64 [float]; a [std::string] is a [string] that may
      hold any character, the NUL character included; a
      [const char *] argument is read up to its first NUL ([c_str]).
    - A member function that can throw is a function from the state it
      works on to an [outcome] paired with the state it leaves behind, so
      that what an exception leaves in the object can be observed.
    - The anonymous union of the three scalar members is a sum with one
      active member at a time; reading a member that is not the active
      one has the outcome [Undefined]. *)

From Stdlib Require Import ZArith Floats Uint63 String Ascii DecimalString.
From stdpp Require Import base decidable countable finite gmap strings list fin_maps.

Open Scope string_scope.
Open Scope Z_scope.

(** ** The key catalog and the type tags (lines 21-50) *)

(** [enum configuration_keys], the first column of
    [CONFIGURATION_KEYS_ENUM], in declaration order. *)
Inductive configuration_keys : Set :=
| NORMALIZE_GAS_CONSTANTS
| CRITICAL_WITHIN_1UK
| CRITICAL_SPLINES_ENABLED
| SAVE_RAW_TABLES
| ALTERNATIVE_TABLES_DIRECTORY
| ALTERNATIVE_REFPROP_PATH
| ALTERNATIVE_REFPROP_HMX_BNC_PATH
| REFPROP_DONT_ESTIMATE_INTERACTION_PARAMETERS
| MAXIMUM_TABLE_DIRECTORY_SIZE_IN_GB
| DONT_CHECK_PROPERTY_LIMITS
| HENRYS_LAW_TO_GENERATE_VLE_GUESSES
| PHASE_ENVELOPE_STARTING_PRESSURE_PA.

(** [enum ConfigurationDataTypes]. *)
Inductive ConfigurationDataTypes : Set :=
| CONFIGURATION_NOT_DEFINED_TYPE
| CONFIGURATION_BOOL_TYPE
| CONFIGURATION_DOUBLE_TYPE
| CONFIGURATION_INTEGER_TYPE
| CONFIGURATION_STRING_TYPE
| CONFIGURATION_ENDOFLIST_TYPE.

#[global] Instance configuration_keys_eq_dec : EqDecision configuration_keys.
Proof. solve_decision. Defined.

#[global] Instance ConfigurationDataTypes_eq_dec : EqDecision ConfigurationDataTypes.
Proof. solve_decision. Defined.

(** The keys in the order of their enumerator values, which is the order
    in which a [std::map<configuration_keys, _>] is traversed. *)
Definition all_keys : list configuration_keys :=
  [ NORMALIZE_GAS_CONSTANTS; CRITICAL_WITHIN_1UK; CRITICAL_SPLINES_ENABLED;
    SAVE_RAW_TABLES; ALTERNATIVE_TABLES_DIRECTORY; ALTERNATIVE_REFPROP_PATH;
    ALTERNATIVE_REFPROP_HMX_BNC_PATH;
    REFPROP_DONT_ESTIMATE_INTERACTION_PARAMETERS;
    MAXIMUM_TABLE_DIRECTORY_SIZE_IN_GB; DONT_CHECK_PROPERTY_LIMITS;
    HENRYS_LAW_TO_GENERATE_VLE_GUESSES; PHASE_ENVELOPE_STARTING_PRESSURE_PA ].

Lemma all_keys_NoDup : NoDup all_keys.
Proof. apply (bool_decide_unpack _). vm_compute. exact I. Qed.

Lemma all_keys_complete (k : configuration_keys) : k ∈ all_keys.
Proof. destruct k; apply (bool_decide_unpack _); vm_compute; exact I. Qed.

#[global] Program Instance configuration_keys_finite : Finite configuration_keys :=
  {| enum := all_keys |}.
Next Obligation. exact all_keys_NoDup. Qed.
Next Obligation. exact all_keys_complete. Qed.

(** ** C++ scalars and strings *)

Definition INT_MIN : Z := - 2 ^ 31.
Definition INT_MAX : Z := 2 ^ 31 - 1.

(** The values of the C++ type [int]. *)
Definition int_range (z : Z) : Prop := INT_MIN <= z <= INT_MAX.

Definition in_int_range (z : Z) : bool := (INT_MIN <=? z) && (z <=? INT_MAX).

(** [static_cast<double>(i)] for an [int]: exact, every 32-bit integer is
    a binary64 number. *)
Definition double_of_int (i : Z) : float :=
  if i <? 0 then PrimFloat.opp (PrimFloat.of_uint63 (Uint63.of_Z (- i)))
  else PrimFloat.of_uint63 (Uint63.of_Z i).

(** The integer that a binary64 number is, when it is one: the mantissa
    shifted by the exponent, with the sign. *)
Definition SF_integer (f : spec_float) : option Z :=
  match f with
  | S754_zero _ => Some 0
  | S754_finite s m e =>
      if 0 <=? e then Some (cond_Zopp s (Zpos m * 2 ^ e))
      else if Zpos m mod 2 ^ (- e) =? 0 then Some (cond_Zopp s (Zpos m / 2 ^ (- e)))
      else None
  | _ => None
  end.

Definition integer_of_double (d : float) : option Z := SF_integer (Prim2SF d).

(** The characters of a [std::string] seen through [c_str()], or of any
    [const char *]: everything before the first NUL. *)
Fixpoint c_str (s : string) : string :=
  match s with
  | EmptyString => EmptyString
  | String c r => if Ascii.eqb c Ascii.zero then EmptyString else String c (c_str r)
  end.

(** No NUL character in the string. *)
Fixpoint nul_free (s : string) : bool :=
  match s with
  | EmptyString => true
  | String c r => negb (Ascii.eqb c Ascii.zero) && nul_free r
  end.

(** [contains sub s]: [sub] occurs in [s]. *)
Definition contains (sub s : string) : bool :=
  match String.index 0 sub s with
  | Some _ => true
  | None => false
  end.

(** ** Exceptions and outcomes *)

(** Modelled from the spec: [Exceptions.h] is not under src/. [ValueError]
    is the one exception class the header names and throws. The four
    other kinds are the error kinds that section 7 of the specification
    lists next to it; they are here so that statements about them can be
    written, and no function of the header raises them. *)
Inductive error_kind : Set :=
| ValueError
| TypeMismatch
| NotFound
| InternalError
| ParseError.

#[global] Instance error_kind_eq_dec : EqDecision error_kind.
Proof. solve_decision. Defined.

(** An exception object: its class and the message it was built with. *)
Record exception : Set := mk_exception { kind : error_kind; what : string }.

(** What a call does: it returns, it throws, or the source leaves its
    behaviour undefined (an inactive union member is read, or a JSON
    accessor is used on a value of another kind). *)
Inductive outcome (A : Type) : Type :=
| Return (a : A)
| Throw (e : exception)
| Undefined.

Arguments Return {A} a.
Arguments Throw {A} e.
Arguments Undefined {A}.

(** Computations on a mutable object of type [S]. The state that comes
    back with [Throw] is the state of the object when the exception
    leaves the call. *)
Definition M (S A : Type) : Type := S -> outcome A * S.

Definition ret {S A : Type} (a : A) : M S A := fun s => (Return a, s).

Definition throw {S A : Type} (e : exception) : M S A := fun s => (Throw e, s).

Definition lift {S A : Type} (o : outcome A) : M S A := fun s => (o, s).

Definition bind {S A B : Type} (m : M S A) (k : A -> M S B) : M S B :=
  fun s =>
    match m s with
    | (Return a, s') => k a s'
    | (Throw e, s') => (Throw e, s')
    | (Undefined, s') => (Undefined, s')
    end.

Definition get {S : Type} : M S S := fun s => (Return s, s).

Definition modify {S : Type} (f : S -> S) : M S unit := fun s => (Return tt, f s).

Declare Scope cpp_scope.
Delimit Scope cpp_scope with cpp.
Notation "x <- c1 ;; c2" := (bind c1 (fun x => c2))
  (at level 100, c1 at next level, right associativity) : cpp_scope.
Notation "c1 ;; c2" := (bind c1 (fun _ => c2))
  (at level 100, right associativity) : cpp_scope.
Open Scope cpp_scope.

Definition returned {A : Type} (o : outcome A) : bool :=
  match o with Return _ => true | _ => false end.

(** ** The JSON tree *)

Module rapidjson.

(** Modelled from the spec: [rapidjson_include.h] is not under src/; the
    JSON library is an external collaborator. This is the document tree
    that section 1 of the specification asks of it: scalars, arrays and
    objects, the four type predicates the header calls, the four typed
    getters, and a builder that adds a named member to an object. A
    number without fraction or exponent is [JInteger]; [IsInt] holds of
    it when it fits an [int], and [IsDouble] holds of [JDouble] only. *)
#[local] Set Warnings "-register-all".
Inductive Value : Type :=
| JNull
| JBool (b : bool)
| JInteger (z : Z)
| JDouble (d : float)
| JString (s : string)
| JArray (elements : list Value)
| JObject (members : list (string * Value)).

Definition IsBool (v : Value) : bool :=
  match v with JBool _ => true | _ => false end.

Definition IsInt (v : Value) : bool :=
  match v with JInteger z => in_int_range z | _ => false end.

Definition IsDouble (v : Value) : bool :=
  match v with JDouble _ => true | _ => false end.

Definition IsString (v : Value) : bool :=
  match v with JString _ => true | _ => false end.

Definition GetBool (v : Value) : outcome bool :=
  match v with JBool b => Return b | _ => Undefined end.

Definition GetInt (v : Value) : outcome Z :=
  match v with
  | JInteger z => if in_int_range z then Return z else Undefined
  | _ => Undefined
  end.

Definition GetDouble (v : Value) : outcome float :=
  match v with JDouble d => Return d | _ => Undefined end.

(** [GetString] returns a [const char *]: the caller sees the characters
    up to the first NUL. *)
Definition GetString (v : Value) : outcome string :=
  match v with JString s => Return (c_str s) | _ => Undefined end.

(** [val.AddMember(name, v, allocator)] on the object [val]. *)
Definition AddMember (name : string) (v : Value) : M Value unit :=
  fun val =>
    match val with
    | JObject members => (Return tt, JObject (members ++ [(name, v)]))
    | _ => (Undefined, val)
    end.

(** The JSON type of a value, as the specification names them. *)
Inductive json_type : Set :=
| json_null | json_boolean | json_number | json_string | json_array | json_object.

Definition GetType (v : Value) : json_type :=
  match v with
  | JNull => json_null
  | JBool _ => json_boolean
  | JInteger _ | JDouble _ => json_number
  | JString _ => json_string
  | JArray _ => json_array
  | JObject _ => json_object
  end.

End rapidjson.

Module CoolProp.

Import rapidjson.

(** ** Helpers of the library that the header calls *)

(** Modelled from the spec: [format] is the printf-style helper of
    [CoolPropTools.h], which is not under src/. The header calls it with a
    format and either no argument or one string for a single [%s]; the
    model copies the format and puts the argument, read as a C string, in
    the place of the first [%s]. *)
Fixpoint format (fmt : string) (args : list string) : string :=
  match fmt with
  | String "%" (String "s" r) =>
      match args with
      | a :: args' => (c_str a ++ format r args')%string
      | [] => format r []
      end
  | String c r => String c (format r args)
  | EmptyString => EmptyString
  end.

(** [throw ValueError(msg)] and [throw ValueError()]. *)
Definition ValueError_ (msg : string) : exception := mk_exception ValueError msg.

Definition ValueError_default : exception := mk_exception ValueError EmptyString.

(** ** The catalog table (lines 21-33) *)

(** The third column of the table is a C++ literal; its static type picks
    the constructor of [ConfigurationItem] that [set_defaults] calls. *)
Inductive default_value : Type :=
| default_bool (val : bool)
| default_int (val : Z)
| default_double (val : float)
| default_cstring (val : string).

Record catalog_entry : Type := X {
  Enum : configuration_keys;
  String_ : string;
  Default : default_value;
  Desc : string
}.

(** [CONFIGURATION_KEYS_ENUM]. *)
Definition CONFIGURATION_KEYS_ENUM : list catalog_entry :=
  [ X NORMALIZE_GAS_CONSTANTS "NORMALIZE_GAS_CONSTANTS" (default_bool true)
      "If true, for mixtures, the molar gas constant (R) will be set to the CODATA value";
    X CRITICAL_WITHIN_1UK "CRITICAL_WITHIN_1UK" (default_bool true)
      "If true, any temperature within 1 uK of the critical temperature will be considered to be AT the critical point";
    X CRITICAL_SPLINES_ENABLED "CRITICAL_SPLINES_ENABLED" (default_bool true)
      "If true, the critical splines will be used in the near-vicinity of the critical point";
    X SAVE_RAW_TABLES "SAVE_RAW_TABLES" (default_bool false)
      "If true, the raw, uncompressed tables will also be written to file";
    X ALTERNATIVE_TABLES_DIRECTORY "ALTERNATIVE_TABLES_DIRECTORY" (default_cstring EmptyString)
      "If provided, this path will be the root directory for the tabular data.  Otherwise, ${HOME}/.CoolProp/Tables is used";
    X ALTERNATIVE_REFPROP_PATH "ALTERNATIVE_REFPROP_PATH" (default_cstring EmptyString)
      "An alternative path to be provided to the directory that contains REFPROP's fluids and mixtures directories.  If provided, the SETPATH function will be called with this directory prior to calling any REFPROP functions.";
    X ALTERNATIVE_REFPROP_HMX_BNC_PATH "ALTERNATIVE_REFPROP_HMX_BNC_PATH" (default_cstring EmptyString)
      "An alternative path to the HMX.BNC file.  If provided, it will be passed into REFPROP's SETUP or SETMIX routines";
    X REFPROP_DONT_ESTIMATE_INTERACTION_PARAMETERS "REFPROP_DONT_ESTIMATE_INTERACTION_PARAMETERS" (default_bool false)
      "If true, if the binary interaction parameters in REFPROP are estimated, throw an error rather than silently continuing";
    X MAXIMUM_TABLE_DIRECTORY_SIZE_IN_GB "MAXIMUM_TABLE_DIRECTORY_SIZE_IN_GB" (default_double 1.0%float)
      "The maximum allowed size of the directory that is used to store tabular data";
    X DONT_CHECK_PROPERTY_LIMITS "DONT_CHECK_PROPERTY_LIMITS" (default_bool false)
      "If true, when possible, CoolProp will skip checking whether values are inside the property limits";
    X HENRYS_LAW_TO_GENERATE_VLE_GUESSES "HENRYS_LAW_TO_GENERATE_VLE_GUESSES" (default_bool false)
      "If true, when doing water-based mixture dewpoint calculations, use Henry's Law to generate guesses for liquid-phase composition";
    X PHASE_ENVELOPE_STARTING_PRESSURE_PA "PHASE_ENVELOPE_STARTING_PRESSURE_PA" (default_double 100.0%float)
      "Starting pressure [Pa] for phase envelope construction" ].

(** The entry of a key: the first row of the table that carries it. *)
Definition entry_of (k : configuration_keys) : option catalog_entry :=
  List.find (fun e => bool_decide (Enum e = k)) CONFIGURATION_KEYS_ENUM.

(** Modelled from the spec: [config_key_to_string] is declared in the
    header (line 56, a 1-1 representation of the key) and defined in
    [Configuration.cpp], which is not under src/. It is the [name_of] of
    section 4.1: the second column of the key's row. *)
Definition config_key_to_string (keys : configuration_keys) : string :=
  match entry_of keys with
  | Some e => String_ e
  | None => EmptyString
  end.

(** Modelled from the spec: the [key_of] of section 4.1, the inverse
    translation, which fails on a name that no row carries. *)
Definition config_string_to_key (name : string) : option configuration_keys :=
  Enum <$> List.find (fun e => String.eqb (String_ e) name) CONFIGURATION_KEYS_ENUM.

(** The type tag that a default value gives its item. *)
Definition default_type (d : default_value) : ConfigurationDataTypes :=
  match d with
  | default_bool _ => CONFIGURATION_BOOL_TYPE
  | default_int _ => CONFIGURATION_INTEGER_TYPE
  | default_double _ => CONFIGURATION_DOUBLE_TYPE
  | default_cstring _ => CONFIGURATION_STRING_TYPE
  end.

(** ** [class ConfigurationItem] (lines 66-180) *)

(** The anonymous union [{ double v_double; bool v_bool; int v_integer; }]:
    the member written last is the active one; before any write there is
    none. *)
Inductive scalar_union : Type :=
| no_active_member
| active_v_double (v_double : float)
| active_v_bool (v_bool : bool)
| active_v_integer (v_integer : Z).

(** The data members (lines 171-179). *)
Record ConfigurationItem : Type := mk_item {
  type : ConfigurationDataTypes;
  scalars : scalar_union;
  v_string : string;
  key : configuration_keys
}.

(** Assignments to the members. *)
Definition assign_v_bool (val : bool) : M ConfigurationItem unit :=
  modify (fun this => mk_item (type this) (active_v_bool val) (v_string this) (key this)).

Definition assign_v_integer (val : Z) : M ConfigurationItem unit :=
  modify (fun this => mk_item (type this) (active_v_integer val) (v_string this) (key this)).

Definition assign_v_double (val : float) : M ConfigurationItem unit :=
  modify (fun this => mk_item (type this) (active_v_double val) (v_string this) (key this)).

Definition assign_v_string (val : string) : M ConfigurationItem unit :=
  modify (fun this => mk_item (type this) (scalars this) val (key this)).

(** Reads of the members of the union. *)
Definition read_v_bool (this : ConfigurationItem) : outcome bool :=
  match scalars this with active_v_bool b => Return b | _ => Undefined end.

Definition read_v_integer (this : ConfigurationItem) : outcome Z :=
  match scalars this with active_v_integer i => Return i | _ => Undefined end.

Definition read_v_double (this : ConfigurationItem) : outcome float :=
  match scalars this with active_v_double d => Return d | _ => Undefined end.

(** The five constructors (lines 77-95). [v_string] starts empty, and the
    union starts with no active member, unless the constructor assigns
    them. *)
Definition ConfigurationItem_bool (key : configuration_keys) (val : bool) : ConfigurationItem :=
  mk_item CONFIGURATION_BOOL_TYPE (active_v_bool val) EmptyString key.

Definition ConfigurationItem_int (key : configuration_keys) (val : Z) : ConfigurationItem :=
  mk_item CONFIGURATION_INTEGER_TYPE (active_v_integer val) EmptyString key.

Definition ConfigurationItem_double (key : configuration_keys) (val : float) : ConfigurationItem :=
  mk_item CONFIGURATION_DOUBLE_TYPE (active_v_double val) EmptyString key.

Definition ConfigurationItem_cstring (key : configuration_keys) (val : string) : ConfigurationItem :=
  mk_item CONFIGURATION_STRING_TYPE no_active_member (c_str val) key.

Definition ConfigurationItem_string (key : configuration_keys) (val : string) : ConfigurationItem :=
  mk_item CONFIGURATION_STRING_TYPE no_active_member val key.

(** [check_data_type] (lines 166-170). *)
Definition check_data_type (type' : ConfigurationDataTypes) : M ConfigurationItem unit :=
  this <- get ;;
  if bool_decide (type' <> type this)
  then throw (ValueError_ (format "type does not match" []))
  else ret tt.

(** The cast operators (lines 71-75). *)
Definition operator_bool : M ConfigurationItem bool :=
  check_data_type CONFIGURATION_BOOL_TYPE ;;
  this <- get ;; lift (read_v_bool this).

Definition operator_double : M ConfigurationItem float :=
  check_data_type CONFIGURATION_DOUBLE_TYPE ;;
  this <- get ;; lift (read_v_double this).

Definition operator_string : M ConfigurationItem string :=
  check_data_type CONFIGURATION_STRING_TYPE ;;
  this <- get ;; ret (v_string this).

(** The typed writes (lines 96-111). *)
Definition set_bool (val : bool) : M ConfigurationItem unit :=
  check_data_type CONFIGURATION_BOOL_TYPE ;;
  assign_v_bool val.

Definition set_integer (val : Z) : M ConfigurationItem unit :=
  check_data_type CONFIGURATION_INTEGER_TYPE ;;
  assign_v_integer val.

Definition set_double (val : float) : M ConfigurationItem unit :=
  check_data_type CONFIGURATION_DOUBLE_TYPE ;;
  assign_v_double val.

Definition set_string (val : string) : M ConfigurationItem unit :=
  check_data_type CONFIGURATION_STRING_TYPE ;;
  assign_v_string val.

Definition get_key (this : ConfigurationItem) : configuration_keys := key this.

(** [add_to_json] (lines 118-146). The item is [const]; the state is the
    JSON value [val] that receives the member. *)
Definition add_to_json (this : ConfigurationItem) : M Value unit :=
  let name_string := config_key_to_string (key this) in
  let name := c_str name_string in
  match type this with
  | CONFIGURATION_BOOL_TYPE =>
      v_bool <- lift (read_v_bool this) ;;
      AddMember name (JBool v_bool)
  | CONFIGURATION_INTEGER_TYPE =>
      v_integer <- lift (read_v_integer this) ;;
      AddMember name (JInteger v_integer)
  | CONFIGURATION_DOUBLE_TYPE =>
      v_double <- lift (read_v_double this) ;;
      AddMember name (JDouble v_double)
  | CONFIGURATION_STRING_TYPE =>
      AddMember name (JString (c_str (v_string this)))
  | CONFIGURATION_ENDOFLIST_TYPE
  | CONFIGURATION_NOT_DEFINED_TYPE =>
      throw ValueError_default
  end.

(** A writer to run the functions below on concrete inputs: it gives the
    text of the three JSON literals and no text for any other value. *)
Definition literal_text (v : Value) : string :=
  match v with
  | JNull => "null"
  | JBool true => "true"
  | JBool false => "false"
  | _ => EmptyString
  end.

(** A small writer and reader of compact JSON, to run the text functions
    below on concrete inputs. The theorems hold for every writer and
    every parser. *)

(** The quotation mark and the backslash. *)
Definition quote : ascii := "034"%char.
Definition backslash : ascii := "092"%char.

(** A string between quotation marks: a backslash goes before a quotation
    mark and before a backslash. *)
Fixpoint escape (s : string) : string :=
  match s with
  | EmptyString => EmptyString
  | String c r =>
      if Ascii.eqb c quote || Ascii.eqb c backslash
      then String backslash (String c (escape r))
      else String c (escape r)
  end.

(** An integer in decimal digits. *)
Definition decimal (z : Z) : string := NilZero.string_of_int (Z.to_int z).

Fixpoint zeros (n : nat) : string :=
  match n with O => EmptyString | S n' => String "0" (zeros n') end.

(** Trailing zeros dropped, one digit kept. *)
Fixpoint trim_zeros (s : string) : string :=
  match s with
  | EmptyString => "0"
  | String c r =>
      match trim_zeros r with
      | String "0" EmptyString => if Ascii.eqb c "0" then "0" else String c EmptyString
      | t => String c t
      end
  end.

(** A double in decimal digits, all of them: every finite binary64 number
    has a finite decimal expansion. The text of a NaN or of an infinity
    is not JSON. *)
Definition double_text (d : float) : string :=
  match Prim2SF d with
  | S754_zero s => if s then "-0.0" else "0.0"
  | S754_infinity s => if s then "-Infinity" else "Infinity"
  | S754_nan => "NaN"
  | S754_finite s m e =>
      let sign := if s then "-" else EmptyString in
      let k := Z.to_nat (- e) in
      let digits := decimal (Zpos m * 5 ^ (- e)) in
      let padded := append (zeros (S k - String.length digits)) digits in
      let cut := (String.length padded - k)%nat in
      let body :=
        if 0 <=? e then append (decimal (Zpos m * 2 ^ e)) ".0"
        else append (substring 0 cut padded)
                    (append "." (trim_zeros (substring cut k padded))) in
      append sign body
  end.

Fixpoint join (l : list string) : string :=
  match l with
  | [] => EmptyString
  | [x] => x
  | x :: l' => (x ++ "," ++ join l')%string
  end.

(** The writer: compact JSON text of a value. *)
Fixpoint sample_to_string (v : Value) : string :=
  match v with
  | JNull => "null"
  | JBool true => "true"
  | JBool false => "false"
  | JInteger z => decimal z
  | JDouble d => double_text d
  | JString s => String quote (escape s ++ String quote EmptyString)
  | JArray l => ("[" ++ join (map sample_to_string l) ++ "]")%string
  | JObject ms =>
      ("{" ++ join (map (fun m => String quote (escape (fst m) ++ String quote EmptyString)
                                  ++ ":" ++ sample_to_string (snd m)) ms) ++ "}")%string
  end.










Section WithJsonWriter.

(** [cpjson::to_string], the JSON writer of the library, is not under
    src/: the text it gives for a value is a parameter. *)
Variable to_string : Value -> string.

(** [set_from_json] (lines 147-162). *)
Definition set_from_json (val : Value) : M ConfigurationItem unit :=
  this <- get ;;
  match type this with
  | CONFIGURATION_BOOL_TYPE =>
      (if negb (IsBool val)
       then throw (ValueError_ (format "Input is not boolean" []))
       else ret tt) ;;
      b <- lift (GetBool val) ;; assign_v_bool b
  | CONFIGURATION_INTEGER_TYPE =>
      (if negb (IsInt val)
       then throw (ValueError_ (format "Input is not integer" []))
       else ret tt) ;;
      i <- lift (GetInt val) ;; assign_v_integer i
  | CONFIGURATION_DOUBLE_TYPE =>
      (if negb (IsDouble val) && negb (IsInt val)
       then throw (ValueError_
                     (format "Input [%s] is not double (or something that can be cast to double)"
                             [to_string val]))
       else ret tt) ;;
      if IsDouble val
      then d <- lift (GetDouble val) ;; assign_v_double d
      else i <- lift (GetInt val) ;; assign_v_double (double_of_int i)
  | CONFIGURATION_STRING_TYPE =>
      (if negb (IsString val)
       then throw (ValueError_ (format "Input is not string" []))
       else ret tt) ;;
      s <- lift (GetString val) ;; assign_v_string s
  | CONFIGURATION_ENDOFLIST_TYPE
  | CONFIGURATION_NOT_DEFINED_TYPE =>
      throw ValueError_default
  end.

(** ** [class Configuration] (lines 182-226) *)

(** The one data member, [std::map<configuration_keys, ConfigurationItem> items]. *)
Record Configuration : Type := mk_configuration {
  items : gmap configuration_keys ConfigurationItem
}.

(** [get_item] (lines 192-203), as far as the item it finds. *)
Definition get_item (key : configuration_keys) : M Configuration ConfigurationItem :=
  this <- get ;;
  match items this !! key with
  | Some it => ret it
  | None => throw (ValueError_ (format "invalid item" []))
  end.

(** [get_item] returns a reference into the map: [get_item(key).f(...)]
    runs the member function [f] on the stored item, in place. *)
Definition on_item {A : Type} (key : configuration_keys) (f : M ConfigurationItem A)
  : M Configuration A :=
  it <- get_item key ;;
  fun this =>
    let (o, it') := f it in
    (o, mk_configuration (<[key := it']> (items this))).

(** [add_item] (lines 205-209): [std::map::insert] inserts the pair when
    no element has its key, and does nothing otherwise. *)
Definition add_item (item : ConfigurationItem) : M Configuration unit :=
  modify (fun this =>
            match items this !! get_key item with
            | Some _ => this
            | None => mk_configuration (<[get_key item := item]> (items this))
            end).

(** [get_items] (line 212). *)
Definition get_items (this : Configuration) : gmap configuration_keys ConfigurationItem :=
  items this.

(** [ConfigurationItem(Enum, Default)]: the overload that the static type
    of [Default] selects. *)
Definition ConfigurationItem_of_default (key : configuration_keys) (d : default_value)
  : ConfigurationItem :=
  match d with
  | default_bool val => ConfigurationItem_bool key val
  | default_int val => ConfigurationItem_int key val
  | default_double val => ConfigurationItem_double key val
  | default_cstring val => ConfigurationItem_cstring key val
  end.

(** The expansion of the table under
    [X(Enum, String, Default, Desc) = add_item(ConfigurationItem(Enum, Default));]. *)
Fixpoint expand_X (rows : list catalog_entry) : M Configuration unit :=
  match rows with
  | [] => ret tt
  | e :: rows' =>
      add_item (ConfigurationItem_of_default (Enum e) (Default e)) ;;
      expand_X rows'
  end.

(** [set_defaults] (lines 215-225). *)
Definition set_defaults : M Configuration unit := expand_X CONFIGURATION_KEYS_ENUM.

(** The constructor [Configuration(){set_defaults();}] (line 188). *)
Definition Configuration_new : Configuration :=
  snd (set_defaults (mk_configuration ∅)).

(** ** The free functions declared at lines 232-259 *)

(** Modelled from the spec: the getters and setters are declared in the
    header and defined in [Configuration.cpp], which is not under src/.
    Section 4.3: each typed reader delegates to [get(key).read_as<T>()],
    each typed writer to [get(key).write(value)]. The state is the
    process-wide registry. *)
Definition get_config_bool (key : configuration_keys) : M Configuration bool :=
  on_item key operator_bool.

Definition get_config_double (key : configuration_keys) : M Configuration float :=
  on_item key operator_double.

Definition get_config_string (key : configuration_keys) : M Configuration string :=
  on_item key operator_string.

Definition set_config_bool (key : configuration_keys) (val : bool) : M Configuration unit :=
  on_item key (set_bool val).

Definition set_config_double (key : configuration_keys) (val : float) : M Configuration unit :=
  on_item key (set_double val).

Definition set_config_string (key : configuration_keys) (val : string) : M Configuration unit :=
  on_item key (set_string val).

(** The declared getters and setters with the type of value each one
    carries; the JSON functions carry a whole document. *)
Inductive facade_function : Set :=
| f_get_config_bool | f_get_config_double | f_get_config_string
| f_get_config_as_json | f_get_config_as_json_string
| f_set_config_bool | f_set_config_double | f_set_config_string
| f_set_config_json | f_set_config_as_json_string.

Definition facade : list facade_function :=
  [ f_get_config_bool; f_get_config_double; f_get_config_string;
    f_get_config_as_json; f_get_config_as_json_string;
    f_set_config_bool; f_set_config_double; f_set_config_string;
    f_set_config_json; f_set_config_as_json_string ].

Definition facade_value_type (f : facade_function) : option ConfigurationDataTypes :=
  match f with
  | f_get_config_bool | f_set_config_bool => Some CONFIGURATION_BOOL_TYPE
  | f_get_config_double | f_set_config_double => Some CONFIGURATION_DOUBLE_TYPE
  | f_get_config_string | f_set_config_string => Some CONFIGURATION_STRING_TYPE
  | f_get_config_as_json | f_get_config_as_json_string
  | f_set_config_json | f_set_config_as_json_string => None
  end.

(** The items of the map in the order [std::map] visits them. *)
Definition in_order (this : Configuration) : list ConfigurationItem :=
  omap (fun k => items this !! k) all_keys.

Fixpoint add_all_to_json (l : list ConfigurationItem) : M Value unit :=
  match l with
  | [] => ret tt
  | it :: l' => add_to_json it ;; add_all_to_json l'
  end.

(** Modelled from the spec: [get_config_as_json] is defined in
    [Configuration.cpp], which is not under src/. Section 4.3,
    [export_json]: a JSON object with one member per registry entry, each
    made by the item's [add_to_json], in the order of the keys. *)
Definition get_config_as_json (this : Configuration) : outcome Value :=
  match add_all_to_json (in_order this) (JObject []) with
  | (Return _, doc) => Return doc
  | (Throw e, _) => Throw e
  | (Undefined, _) => Undefined
  end.

(** Modelled from the spec: [set_config_json] is defined in
    [Configuration.cpp], which is not under src/. Section 4.3,
    [import_json]: for every top-level member, resolve the name; if it
    does not resolve, fail with a [ValueError] that names it; else run
    [set_from_json] on the registry's item for that key. On a document
    that is not an object the specification is silent. *)
Fixpoint set_members (members : list (string * Value)) : M Configuration unit :=
  match members with
  | [] => ret tt
  | (name, v) :: members' =>
      match config_string_to_key name with
      | None => throw (ValueError_ name)
      | Some key => on_item key (set_from_json v) ;; set_members members'
      end
  end.

Definition set_config_json (doc : Value) : M Configuration unit :=
  match doc with
  | JObject members => set_members members
  | _ => lift Undefined
  end.

(** The parser of the JSON library ([rapidjson::Document::Parse]) is not
    under src/: the document it reads from a text, when the text is
    well-formed JSON, is a parameter. *)
Variable Parse : string -> option Value.



(** ** Notions of the specification *)

(** The exception of an outcome, if it threw. *)
Definition thrown {A : Type} (o : outcome A) : option exception :=
  match o with Throw e => Some e | _ => None end.

(** The typed writes of an item and the type each one writes. *)
Inductive typed_write : Type :=
| write_bool (val : bool)
| write_integer (val : Z)
| write_double (val : float)
| write_string (val : string).

Definition write_type (w : typed_write) : ConfigurationDataTypes :=
  match w with
  | write_bool _ => CONFIGURATION_BOOL_TYPE
  | write_integer _ => CONFIGURATION_INTEGER_TYPE
  | write_double _ => CONFIGURATION_DOUBLE_TYPE
  | write_string _ => CONFIGURATION_STRING_TYPE
  end.

Definition run_write (w : typed_write) : M ConfigurationItem unit :=
  match w with
  | write_bool val => set_bool val
  | write_integer val => set_integer val
  | write_double val => set_double val
  | write_string val => set_string val
  end.

(** The value of an item: the representation that its type tag selects. *)
Inductive value : Type :=
| bool_value (b : bool)
| integer_value (i : Z)
| double_value (d : float)
| string_value (s : string).

Definition written_value (w : typed_write) : value :=
  match w with
  | write_bool val => bool_value val
  | write_integer val => integer_value val
  | write_double val => double_value val
  | write_string val => string_value val
  end.

(** The typed reads: the class has a cast operator to [bool], to [double]
    and to [std::string], and none to [int]. *)
Inductive typed_read : Set := read_bool | read_double | read_string.

Definition read_type (r : typed_read) : ConfigurationDataTypes :=
  match r with
  | read_bool => CONFIGURATION_BOOL_TYPE
  | read_double => CONFIGURATION_DOUBLE_TYPE
  | read_string => CONFIGURATION_STRING_TYPE
  end.

Definition as_value {A : Type} (inj : A -> value) (m : M ConfigurationItem A)
  : M ConfigurationItem value :=
  a <- m ;; ret (inj a).

Definition run_read (r : typed_read) : M ConfigurationItem value :=
  match r with
  | read_bool => as_value bool_value operator_bool
  | read_double => as_value double_value operator_double
  | read_string => as_value string_value operator_string
  end.

(** The stored value of an item, read through its type tag. *)
Definition stored_value (it : ConfigurationItem) : outcome value :=
  match type it with
  | CONFIGURATION_BOOL_TYPE =>
      match read_v_bool it with Return b => Return (bool_value b) | _ => Undefined end
  | CONFIGURATION_INTEGER_TYPE =>
      match read_v_integer it with Return i => Return (integer_value i) | _ => Undefined end
  | CONFIGURATION_DOUBLE_TYPE =>
      match read_v_double it with Return d => Return (double_value d) | _ => Undefined end
  | CONFIGURATION_STRING_TYPE => Return (string_value (v_string it))
  | _ => Undefined
  end.


(** The JSON values that the specification lets an item of a given type
    take: the type must match, and a double also takes an [int]. *)
Definition accepts (t : ConfigurationDataTypes) (val : Value) : bool :=
  match t with
  | CONFIGURATION_BOOL_TYPE => IsBool val
  | CONFIGURATION_INTEGER_TYPE => IsInt val
  | CONFIGURATION_DOUBLE_TYPE => IsDouble val || IsInt val
  | CONFIGURATION_STRING_TYPE => IsString val
  | _ => false
  end.

(** The JSON type that mirrors a type tag. *)
Definition mirror (t : ConfigurationDataTypes) : option json_type :=
  match t with
  | CONFIGURATION_BOOL_TYPE => Some json_boolean
  | CONFIGURATION_INTEGER_TYPE => Some json_number
  | CONFIGURATION_DOUBLE_TYPE => Some json_number
  | CONFIGURATION_STRING_TYPE => Some json_string
  | _ => None
  end.

(** The JSON value that [add_to_json] builds from a stored value. *)
Definition json_of_value (x : value) : Value :=
  match x with
  | bool_value b => JBool b
  | integer_value i => JInteger i
  | double_value d => JDouble d
  | string_value s => JString (c_str s)
  end.

(** A properly constructed item: made by one of the five constructors and
    then changed by the member functions only. An [int] argument is in
    [int_range]. *)
Inductive constructed : ConfigurationItem -> Prop :=
| made_bool key val : constructed (ConfigurationItem_bool key val)
| made_int key val : int_range val -> constructed (ConfigurationItem_int key val)
| made_double key val : constructed (ConfigurationItem_double key val)
| made_cstring key val : constructed (ConfigurationItem_cstring key val)
| made_string key val : constructed (ConfigurationItem_string key val)
| after_write w it :
    (forall i, w = write_integer i -> int_range i) ->
    constructed it -> constructed (snd (run_write w it))
| after_set_from_json val it :
    constructed it -> constructed (snd (set_from_json val it)).

(** The tag of the item selects the active member of the union, and an
    integer is an [int]. *)
Definition well_formed (it : ConfigurationItem) : Prop :=
  match type it, scalars it with
  | CONFIGURATION_BOOL_TYPE, active_v_bool _ => True
  | CONFIGURATION_INTEGER_TYPE, active_v_integer i => int_range i
  | CONFIGURATION_DOUBLE_TYPE, active_v_double _ => True
  | CONFIGURATION_STRING_TYPE, _ => True
  | _, _ => False
  end.

(** The string of a string-typed item has no NUL character. *)
Definition text_nul_free (it : ConfigurationItem) : Prop :=
  type it = CONFIGURATION_STRING_TYPE -> nul_free (v_string it) = true.

(** [same_shell target it]: the two items have the same key and type tag
    and agree on the storage that the tag leaves unused, so that they
    can differ in their value only. *)
Definition same_shell (target it : ConfigurationItem) : Prop :=
  key target = key it /\ type target = type it /\
  (type it = CONFIGURATION_STRING_TYPE -> scalars target = scalars it) /\
  (type it <> CONFIGURATION_STRING_TYPE -> v_string target = v_string it).


(** A string with a NUL character in it: the three characters a, NUL, b. *)
Definition text_with_nul : string := String "a" (String Ascii.zero (String "b" EmptyString)).

(** The writes of the registry, through the typed setters. *)
Inductive config_write : Type :=
| config_bool (key : configuration_keys) (val : bool)
| config_double (key : configuration_keys) (val : float)
| config_string (key : configuration_keys) (val : string).

Definition run_config_write (w : config_write) : M Configuration unit :=
  match w with
  | config_bool key val => set_config_bool key val
  | config_double key val => set_config_double key val
  | config_string key val => set_config_string key val
  end.

Fixpoint run_config_writes (ws : list config_write) : M Configuration unit :=
  match ws with
  | [] => ret tt
  | w :: ws' => run_config_write w ;; run_config_writes ws'
  end.





(** ** Notions for the further properties *)

(** Every item of the map sits under its own key. *)
Definition keyed (cfg : Configuration) : Prop :=
  forall k it, items cfg !! k = Some it -> key it = k.

(** The item that the expansion of [rows] builds for a key: the one of
    the first row that carries the key. *)
Definition item_of_rows (rows : list catalog_entry) (k : configuration_keys)
  : option ConfigurationItem :=
  (fun e => ConfigurationItem_of_default (Enum e) (Default e))
    <$> List.find (fun e => bool_decide (Enum e = k)) rows.

(** The default item of a key. *)
Definition default_item (k : configuration_keys) : option ConfigurationItem :=
  item_of_rows CONFIGURATION_KEYS_ENUM k.

(** The calls that change a registry: the two member functions that
    insert, and a member function of the item run through the reference
    that [get_item] returns. *)
Inductive registry_call : Type :=
| call_add_item (item : ConfigurationItem)
| call_set_defaults
| call_write (key : configuration_keys) (w : typed_write)
| call_set_from_json (key : configuration_keys) (val : Value).

Definition run_call (c : registry_call) : M Configuration unit :=
  match c with
  | call_add_item item => add_item item
  | call_set_defaults => set_defaults
  | call_write key w => on_item key (run_write w)
  | call_set_from_json key val => on_item key (set_from_json val)
  end.

(** The registry after a sequence of calls, whatever each call returned
    or threw. *)
Definition after_calls (cs : list registry_call) (cfg : Configuration) : Configuration :=
  fold_left (fun cfg c => snd (run_call c cfg)) cs cfg.

(** The value that [set_from_json] takes from a JSON value for an item
    of a given type tag, when it takes one. *)
Definition imported (t : ConfigurationDataTypes) (val : Value) : option value :=
  match t, val with
  | CONFIGURATION_BOOL_TYPE, JBool b => Some (bool_value b)
  | CONFIGURATION_INTEGER_TYPE, JInteger z =>
      if in_int_range z then Some (integer_value z) else None
  | CONFIGURATION_DOUBLE_TYPE, JDouble d => Some (double_value d)
  | CONFIGURATION_DOUBLE_TYPE, JInteger z =>
      if in_int_range z then Some (double_value (double_of_int z)) else None
  | CONFIGURATION_STRING_TYPE, JString s => Some (string_value (c_str s))
  | _, _ => None
  end.

(** ** Properties of the item *)

Lemma check_data_type_eq (t : ConfigurationDataTypes) (it : ConfigurationItem) :
  t = type it -> check_data_type t it = (Return tt, it).
Proof.
  intros Ht. unfold check_data_type, bind, get.
  rewrite bool_decide_eq_false_2; [reflexivity | intros H; exact (H Ht)].
Qed.

Lemma check_data_type_ne (t : ConfigurationDataTypes) (it : ConfigurationItem) :
  t <> type it ->
  check_data_type t it = (Throw (ValueError_ "type does not match"), it).
Proof.
  intros Ht. unfold check_data_type, bind, get.
  rewrite bool_decide_eq_true_2; [reflexivity | exact Ht].
Qed.

(** Either way [check_data_type] leaves the item as it found it. *)
Lemma check_data_type_const (t : ConfigurationDataTypes) (it : ConfigurationItem) :
  snd (check_data_type t it) = it.
Proof.
  destruct (decide (t = type it)) as [Ht | Ht].
  - rewrite check_data_type_eq; auto.
  - rewrite check_data_type_ne; auto.
Qed.

Lemma run_write_mismatch (w : typed_write) (it : ConfigurationItem) :
  write_type w <> type it ->
  run_write w it = (Throw (ValueError_ "type does not match"), it).
Proof.
  intros Ht.
  destruct w; unfold run_write, set_bool, set_integer, set_double, set_string, bind;
    rewrite check_data_type_ne; auto.
Qed.

Lemma run_read_mismatch (r : typed_read) (it : ConfigurationItem) :
  read_type r <> type it ->
  run_read r it = (Throw (ValueError_ "type does not match"), it).
Proof.
  intros Ht.
  destruct r;
    unfold run_read, as_value, operator_bool, operator_double, operator_string, bind;
    rewrite check_data_type_ne; auto.
Qed.

Lemma run_write_match (w : typed_write) (it : ConfigurationItem) :
  write_type w = type it ->
  exists it',
    run_write w it = (Return tt, it') /\
    type it' = type it /\ key it' = key it /\
    stored_value it' = Return (written_value w).
Proof.
  intros Ht.
  destruct w; unfold run_write, set_bool, set_integer, set_double, set_string, bind;
    rewrite check_data_type_eq by exact Ht; cbn in *;
    (eexists; split; [reflexivity | ]); unfold stored_value; cbn; rewrite <- Ht; auto.
Qed.

Lemma run_read_stored (r : typed_read) (it : ConfigurationItem) (v : value) :
  read_type r = type it -> stored_value it = Return v ->
  run_read r it = (Return v, it).
Proof.
  intros Ht Hv.
  destruct r;
    unfold run_read, as_value, operator_bool, operator_double, operator_string, bind;
    rewrite check_data_type_eq by exact Ht; cbn in *;
    unfold stored_value in Hv; rewrite <- Ht in Hv; cbn in Hv; unfold lift.
  - destruct (read_v_bool it); unfold ret; congruence.
  - destruct (read_v_double it); unfold ret; congruence.
  - unfold ret. congruence.
Qed.

Lemma run_write_type (w : typed_write) (it : ConfigurationItem) :
  type (snd (run_write w it)) = type it /\ key (snd (run_write w it)) = key it.
Proof.
  destruct (decide (write_type w = type it)) as [Ht | Ht].
  - destruct (run_write_match w it Ht) as (it' & -> & ? & ? & _). auto.
  - rewrite run_write_mismatch by exact Ht. auto.
Qed.

Lemma run_read_const (r : typed_read) (it : ConfigurationItem) :
  snd (run_read r it) = it.
Proof.
  destruct (decide (read_type r = type it)) as [Ht | Ht].
  - destruct r;
      unfold run_read, as_value, operator_bool, operator_double, operator_string, bind;
      rewrite check_data_type_eq by exact Ht; cbn; unfold lift.
    + destruct (read_v_bool it); reflexivity.
    + destruct (read_v_double it); reflexivity.
    + reflexivity.
  - rewrite run_read_mismatch by exact Ht. reflexivity.
Qed.

(** Case analysis on the tag of an item and on a JSON value, for the
    functions that dispatch on both. *)
Ltac by_tag_and_value it val :=
  destruct it as [t u s k]; destruct t; destruct val as [ | b | z | d | str | l | ms ];
  unfold set_from_json, bind, get, lift, throw, ret, assign_v_bool, assign_v_integer,
    assign_v_double, assign_v_string, modify, accepts;
  cbn [type scalars v_string key IsBool IsInt IsDouble IsString GetBool GetInt GetDouble
       GetString negb andb orb fst snd];
  try (destruct (in_int_range z) eqn:Hz);
  cbn [negb andb orb fst snd].

Lemma set_from_json_rejects (val : Value) (it : ConfigurationItem) :
  accepts (type it) val = false ->
  exists e, kind e = ValueError /\ set_from_json val it = (Throw e, it).
Proof.
  by_tag_and_value it val; intros Hacc; try discriminate Hacc;
    eexists; (split; [ | reflexivity ]); reflexivity.
Qed.

Lemma set_from_json_accepts (val : Value) (it : ConfigurationItem) :
  accepts (type it) val = true ->
  exists it',
    set_from_json val it = (Return tt, it') /\
    type it' = type it /\ key it' = key it.
Proof.
  by_tag_and_value it val; intros Hacc; try discriminate Hacc;
    eexists; (split; [ reflexivity | ]); split; reflexivity.
Qed.

Lemma set_from_json_type (val : Value) (it : ConfigurationItem) :
  type (snd (set_from_json val it)) = type it /\
  key (snd (set_from_json val it)) = key it.
Proof.
  destruct (accepts (type it) val) eqn:Hacc.
  - destruct (set_from_json_accepts val it Hacc) as (it' & -> & ? & ?). auto.
  - destruct (set_from_json_rejects val it Hacc) as (e & _ & ->). auto.
Qed.

(** An exception leaves the item of [set_from_json] untouched. *)
Lemma set_from_json_throw (val : Value) (it : ConfigurationItem) (e : exception) :
  fst (set_from_json val it) = Throw e -> snd (set_from_json val it) = it.
Proof.
  destruct (accepts (type it) val) eqn:Hacc.
  - destruct (set_from_json_accepts val it Hacc) as (it' & -> & _). discriminate.
  - destruct (set_from_json_rejects val it Hacc) as (e' & _ & ->). reflexivity.
Qed.

Lemma run_write_throw (w : typed_write) (it : ConfigurationItem) (e : exception) :
  fst (run_write w it) = Throw e -> snd (run_write w it) = it.
Proof.
  destruct (decide (write_type w = type it)) as [Ht | Ht].
  - destruct (run_write_match w it Ht) as (it' & -> & _). discriminate.
  - rewrite run_write_mismatch by exact Ht. reflexivity.
Qed.

(** The widening of the double branch. *)
Lemma set_from_json_widens (val : Value) (it : ConfigurationItem) :
  type it = CONFIGURATION_DOUBLE_TYPE -> IsInt val = true ->
  exists i,
    GetInt val = Return i /\ int_range i /\
    set_from_json val it =
      (Return tt,
       mk_item CONFIGURATION_DOUBLE_TYPE (active_v_double (double_of_int i))
               (v_string it) (key it)).
Proof.
  by_tag_and_value it val; intros Ht Hint; try discriminate Ht; try discriminate Hint.
  exists z. repeat split; try reflexivity.
  - unfold in_int_range in Hz. apply andb_prop in Hz as [H1 H2].
    apply Z.leb_le in H1. exact H1.
  - unfold in_int_range in Hz. apply andb_prop in Hz as [H1 H2].
    apply Z.leb_le in H2. exact H2.
Qed.

(** ** Properties of the registry *)

Lemma get_item_found (k : configuration_keys) (cfg : Configuration) (it : ConfigurationItem) :
  items cfg !! k = Some it -> get_item k cfg = (Return it, cfg).
Proof. intros H. unfold get_item, bind, get. rewrite H. reflexivity. Qed.

Lemma get_item_missing (k : configuration_keys) (cfg : Configuration) :
  items cfg !! k = None ->
  get_item k cfg = (Throw (ValueError_ "invalid item"), cfg).
Proof. intros H. unfold get_item, bind, get. rewrite H. reflexivity. Qed.

(** What the constructor leaves in the map, row by row. *)
Lemma Configuration_new_rows :
  Forall (fun e => items Configuration_new !! Enum e
                   = Some (ConfigurationItem_of_default (Enum e) (Default e)))
         CONFIGURATION_KEYS_ENUM.
Proof. repeat constructor. Qed.

(** Every key has its row in the table. *)
Lemma entry_of_row (k : configuration_keys) :
  exists e, entry_of k = Some e /\ e ∈ CONFIGURATION_KEYS_ENUM /\ Enum e = k.
Proof.
  destruct k; eexists; (split; [ reflexivity | ]); (split; [ | reflexivity ]);
    repeat constructor.
Qed.

Lemma default_item_type (k : configuration_keys) (d : default_value) :
  type (ConfigurationItem_of_default k d) = default_type d /\
  key (ConfigurationItem_of_default k d) = k.
Proof. destruct d; split; reflexivity. Qed.

(** C1. For every row of the key catalog, [get_item] on a freshly
    constructed [Configuration] returns an item for the key of that row,
    and the type tag of that item is the one that the type of the row's
    default value selects: [CONFIGURATION_BOOL_TYPE] for a [bool],
    [CONFIGURATION_DOUBLE_TYPE] for a [double],
    [CONFIGURATION_STRING_TYPE] for a string. The registry is left as it
    was. *)
Theorem fresh_registry_is_total (e : catalog_entry) :
  e ∈ CONFIGURATION_KEYS_ENUM ->
  exists it,
    get_item (Enum e) Configuration_new = (Return it, Configuration_new) /\
    key it = Enum e /\
    type it = default_type (Default e).
Proof.
  intros He.
  pose proof (proj1 (Forall_forall _ _) Configuration_new_rows e He) as Hrow.
  exists (ConfigurationItem_of_default (Enum e) (Default e)).
  split; [ apply get_item_found; exact Hrow | ].
  destruct (default_item_type (Enum e) (Default e)); auto.
Qed.

(** ** The conversion of an [int] to [double] is exact *)

Lemma digits2_pos_bound (p : positive) :
  forall n, 0 <= n -> Zpos p < 2 ^ n -> Zpos (digits2_pos p) <= n.
Proof.
  induction p as [ q IH | q IH | ]; intros n Hn Hp; cbn [digits2_pos].
  - assert (Hn1 : 1 <= n).
    { destruct (Z.eq_dec n 0) as [-> | ]; [ cbn in Hp; lia | lia ]. }
    replace n with (Z.succ (n - 1)) in Hp by lia.
    rewrite Z.pow_succ_r in Hp by lia.
    specialize (IH (n - 1) ltac:(lia) ltac:(lia)). lia.
  - assert (Hn1 : 1 <= n).
    { destruct (Z.eq_dec n 0) as [-> | ]; [ cbn in Hp; lia | lia ]. }
    replace n with (Z.succ (n - 1)) in Hp by lia.
    rewrite Z.pow_succ_r in Hp by lia.
    specialize (IH (n - 1) ltac:(lia) ltac:(lia)). lia.
  - destruct (Z.eq_dec n 0) as [-> | ]; [ cbn in Hp; lia | lia ].
Qed.

Lemma digits2_pos_iter_xO (p k : positive) :
  digits2_pos (Pos.iter xO p k) = (digits2_pos p + k)%positive.
Proof.
  induction k as [ | k IH ] using Pos.peano_ind.
  - cbn. lia.
  - rewrite Pos.iter_succ. cbn [digits2_pos]. rewrite IH. lia.
Qed.

Lemma iter_xO_value (p k : positive) :
  Zpos (Pos.iter xO p k) = Zpos p * 2 ^ Zpos k.
Proof.
  induction k as [ | k IH ] using Pos.peano_ind.
  - cbn. lia.
  - rewrite Pos.iter_succ, Pos2Z.inj_succ, Z.pow_succ_r by lia.
    rewrite Pos2Z.inj_xO, IH. lia.
Qed.

(** Rounding a mantissa of fewer than 53 bits to binary64 only aligns
    it. *)
Lemma binary_round_small (sx : bool) (p k : positive) :
  Zpos (digits2_pos p) + Zpos k = 53 ->
  binary_round prec emax sx p 0 = S754_finite sx (Pos.iter xO p k) (Zneg k).
Proof.
  intros Hd. unfold binary_round, shl_align.
  assert (Hf : fexp prec emax (Zpos (digits2_pos p) + 0) = Zneg k).
  { unfold fexp, emin, prec, emax. lia. }
  rewrite Hf, Z.sub_0_r. cbv beta iota zeta.
  unfold binary_round_aux, shr_fexp.
  assert (Hf2 : fexp prec emax (Zdigits2 (Zpos (Pos.iter xO p k)) + Zneg k) - Zneg k = 0).
  { unfold Zdigits2. rewrite digits2_pos_iter_xO. unfold fexp, emin, prec, emax. lia. }
  rewrite Hf2. unfold shr, shr_record_of_loc. cbv beta iota zeta.
  unfold loc_of_shr_record, round_nearest_even, shr_m. cbv beta iota zeta.
  rewrite Hf2. cbv beta iota zeta.
  assert (He : (Zneg k <=? emax - prec) = true) by (unfold prec, emax; apply Z.leb_le; lia).
  rewrite He. reflexivity.
Qed.

Lemma SF_integer_small (sx : bool) (p k : positive) :
  SF_integer (S754_finite sx (Pos.iter xO p k) (Zneg k)) = Some (cond_Zopp sx (Zpos p)).
Proof.
  unfold SF_integer. cbn [Z.leb Z.compare Z.opp].
  rewrite iter_xO_value.
  assert (H2 : 0 < 2 ^ Zpos k) by (apply Z.pow_pos_nonneg; lia).
  rewrite Z.mod_mul by lia. cbn [Z.eqb].
  rewrite Z.div_mul by lia. reflexivity.
Qed.

Lemma SF_integer_opp (f : spec_float) :
  SF_integer (SFopp f) = option_map Z.opp (SF_integer f).
Proof.
  destruct f as [ s | s | | s m e ]; cbn; try reflexivity.
  destruct (0 <=? e); [ | destruct (Z.pos m mod 2 ^ (- e) =? 0) ]; cbn;
    try reflexivity; destruct s; cbn; f_equal; lia.
Qed.

Lemma of_uint63_positive (p : positive) :
  Zpos p < 2 ^ 32 ->
  integer_of_double (PrimFloat.of_uint63 (Uint63.of_Z (Zpos p))) = Some (Zpos p).
Proof.
  intros Hp. unfold integer_of_double.
  rewrite FloatAxioms.of_uint63_spec, Uint63.of_Z_spec.
  rewrite Z.mod_small
    by (split; [ lia | ]; transitivity (2 ^ 32); [ exact Hp | reflexivity ]).
  cbn [binary_normalize].
  pose proof (digits2_pos_bound p 32 ltac:(lia) Hp) as Hd.
  assert (Hk : exists k, Zpos (digits2_pos p) + Zpos k = 53).
  { exists (Z.to_pos (53 - Zpos (digits2_pos p))). rewrite Z2Pos.id; lia. }
  destruct Hk as [k Hk].
  rewrite (binary_round_small false p k Hk). apply SF_integer_small.
Qed.

(** [static_cast<double>] of an [int] is the double of the same value. *)
Lemma double_of_int_exact (i : Z) :
  int_range i -> integer_of_double (double_of_int i) = Some i.
Proof.
  unfold int_range, INT_MIN, INT_MAX. intros Hi.
  destruct i as [ | p | p ].
  - reflexivity.
  - change (double_of_int (Zpos p)) with (PrimFloat.of_uint63 (Uint63.of_Z (Zpos p))).
    apply of_uint63_positive. lia.
  - change (double_of_int (Zneg p))
      with (PrimFloat.opp (PrimFloat.of_uint63 (Uint63.of_Z (Zpos p)))).
    unfold integer_of_double. rewrite FloatAxioms.opp_spec, SF_integer_opp.
    pose proof (of_uint63_positive p ltac:(lia)) as H.
    unfold integer_of_double in H. rewrite H. reflexivity.
Qed.

(** ** The claims about the item *)

(** C2, as the code has it. For every item, every typed write
    ([set_bool], [set_integer], [set_double], [set_string]) and every
    typed read (the cast operators to [bool], [double], [std::string]):
    when the type of the operation differs from the type tag of the item,
    the operation throws the [ValueError] with the message
    "type does not match" and leaves the item as it was; no write, read
    or [set_from_json] changes the type tag or the key; a write of the
    matching type returns, and the value it wrote is the stored value of
    the item and is what the next read of the matching type returns. *)
Theorem type_tag_is_fixed (it : ConfigurationItem) (w : typed_write) (r : typed_read)
    (val : Value) :
  (write_type w <> type it ->
     run_write w it = (Throw (ValueError_ "type does not match"), it)) /\
  (read_type r <> type it ->
     run_read r it = (Throw (ValueError_ "type does not match"), it)) /\
  type (snd (run_write w it)) = type it /\
  snd (run_read r it) = it /\
  type (snd (set_from_json val it)) = type it /\
  (write_type w = type it ->
     exists it',
       run_write w it = (Return tt, it') /\
       stored_value it' = Return (written_value w) /\
       (read_type r = type it -> run_read r it' = (Return (written_value w), it'))).
Proof.
  split; [ apply run_write_mismatch | ].
  split; [ apply run_read_mismatch | ].
  split; [ apply run_write_type | ].
  split; [ apply run_read_const | ].
  split; [ apply set_from_json_type | ].
  intros Ht. destruct (run_write_match w it Ht) as (it' & Hrun & Hty & _ & Hval).
  exists it'. repeat split; auto.
  intros Hr. apply run_read_stored; congruence.
Qed.

(** C3, as the code has it. [set_from_json] on an item of type double
    takes a JSON integer that fits an [int] (a value of which [IsInt]
    holds) and stores the double of the same value, which is what
    [static_cast<double>] makes of an [int]; in a freshly constructed
    registry the item of [MAXIMUM_TABLE_DIRECTORY_SIZE_IN_GB] given the
    JSON integer 2 then reads as the double 2.0. On an item of type bool,
    integer or string the JSON value must satisfy [IsBool], [IsInt] or
    [IsString] respectively: then the call returns, and otherwise it
    throws a [ValueError] and leaves the item as it was. *)
Theorem set_from_json_typing (it : ConfigurationItem) (val : Value) :
  (type it = CONFIGURATION_DOUBLE_TYPE -> IsInt val = true ->
     exists i,
       GetInt val = Return i /\
       set_from_json val it =
         (Return tt,
          mk_item CONFIGURATION_DOUBLE_TYPE (active_v_double (double_of_int i))
                  (v_string it) (key it)) /\
       integer_of_double (double_of_int i) = Some i) /\
  (forall i, int_range i -> integer_of_double (double_of_int i) = Some i) /\
  (exists it0 it1,
     get_item MAXIMUM_TABLE_DIRECTORY_SIZE_IN_GB Configuration_new
       = (Return it0, Configuration_new) /\
     set_from_json (JInteger 2) it0 = (Return tt, it1) /\
     operator_double it1 = (Return 2.0%float, it1)) /\
  (forall (t : ConfigurationDataTypes) (is_t : Value -> bool),
     (t, is_t) ∈ [ (CONFIGURATION_BOOL_TYPE, IsBool);
                   (CONFIGURATION_INTEGER_TYPE, IsInt);
                   (CONFIGURATION_STRING_TYPE, IsString) ] ->
     type it = t ->
     (is_t val = true -> exists it', set_from_json val it = (Return tt, it')) /\
     (is_t val = false ->
        exists e, kind e = ValueError /\ set_from_json val it = (Throw e, it))).
Proof.
  split.
  { intros Ht Hint. destruct (set_from_json_widens val it Ht Hint) as (i & ? & Hi & ?).
    exists i. split; [ assumption | ]. split; [ assumption | ].
    apply double_of_int_exact. exact Hi. }
  split; [ exact double_of_int_exact | ].
  split.
  { eexists. eexists. split; [ | split ].
    - apply get_item_found. reflexivity.
    - reflexivity.
    - reflexivity. }
  intros t is_t Hin Ht.
  assert (Hacc : accepts (type it) val = is_t val).
  { rewrite Ht. set_unfold in Hin.
    destruct Hin as [Heq | [Heq | [Heq | []]]]; injection Heq as -> ->; reflexivity. }
  rewrite <- Hacc. split.
  - intros H. destruct (set_from_json_accepts val it H) as (it' & ? & _). eauto.
  - apply set_from_json_rejects.
Qed.

(** C5. When [set_from_json] or a typed write throws, the item is
    exactly as it was before the call: value, type tag and key. *)
Theorem failed_update_is_atomic (it : ConfigurationItem) (e : exception) :
  (forall val, fst (set_from_json val it) = Throw e -> snd (set_from_json val it) = it) /\
  (forall w, fst (run_write w it) = Throw e -> snd (run_write w it) = it).
Proof.
  split.
  - intros val. apply set_from_json_throw.
  - intros w. apply run_write_throw.
Qed.

(** ** Properly constructed items *)

Lemma in_int_range_iff (z : Z) : in_int_range z = true <-> int_range z.
Proof.
  unfold in_int_range, int_range. rewrite andb_true_iff, !Z.leb_le. reflexivity.
Qed.

Lemma constructed_well_formed (it : ConfigurationItem) :
  constructed it -> well_formed it.
Proof.
  induction 1 as [ k v | k v Hv | k v | k v | k v | w it Hw _ IH | val it _ IH ];
    try exact I; try exact Hv.
  - destruct (decide (write_type w = type it)) as [Ht | Ht].
    + destruct w; unfold run_write, set_bool, set_integer, set_double, set_string, bind;
        rewrite check_data_type_eq by exact Ht;
        unfold well_formed; cbn in *; rewrite <- Ht; auto.
    + rewrite run_write_mismatch by exact Ht. exact IH.
  - revert IH. unfold well_formed.
    by_tag_and_value it val; cbn; auto.
    intros _. apply in_int_range_iff. exact Hz.
Qed.

Lemma c_str_key_name (k : configuration_keys) :
  c_str (config_key_to_string k) = config_key_to_string k.
Proof. destruct k; reflexivity. Qed.

(** On a well-formed item [add_to_json] appends one member, named after
    the key, that holds the stored value. *)
Lemma add_to_json_well_formed (it : ConfigurationItem) (members : list (string * Value)) :
  well_formed it ->
  exists x,
    stored_value it = Return x /\
    add_to_json it (JObject members)
      = (Return tt, JObject (members ++ [(config_key_to_string (key it), json_of_value x)])) /\
    Some (GetType (json_of_value x)) = mirror (type it).
Proof.
  unfold well_formed, add_to_json, stored_value, read_v_bool, read_v_integer, read_v_double.
  rewrite c_str_key_name.
  destruct it as [t u s k]; destruct t; destruct u; cbn; intros H; try contradiction;
    eexists; (split; [ reflexivity | ]); split; reflexivity.
Qed.

Lemma add_to_json_sentinel (it : ConfigurationItem) (val : Value) :
  type it = CONFIGURATION_NOT_DEFINED_TYPE \/ type it = CONFIGURATION_ENDOFLIST_TYPE ->
  add_to_json it val = (Throw ValueError_default, val).
Proof.
  unfold add_to_json. intros [-> | ->]; reflexivity.
Qed.

(** C6, as the code has it. [add_to_json] on an item whose type tag is
    [CONFIGURATION_NOT_DEFINED_TYPE] throws a [ValueError] (built without
    a message) and adds nothing. On every properly constructed item and
    every JSON object it returns, having appended to the object one
    member named by [config_key_to_string] of the key, whose JSON type
    mirrors the type tag: boolean for bool, number for integer and
    double, string for string. *)
Theorem add_to_json_mirrors_type (it : ConfigurationItem) :
  (type it = CONFIGURATION_NOT_DEFINED_TYPE ->
     forall val, add_to_json it val = (Throw (mk_exception ValueError EmptyString), val)) /\
  (constructed it ->
     forall members, exists v,
       add_to_json it (JObject members)
         = (Return tt, JObject (members ++ [(config_key_to_string (key it), v)])) /\
       Some (GetType v) = mirror (type it) /\
       (type it = CONFIGURATION_BOOL_TYPE -> GetType v = json_boolean) /\
       (type it = CONFIGURATION_INTEGER_TYPE -> GetType v = json_number) /\
       (type it = CONFIGURATION_DOUBLE_TYPE -> GetType v = json_number) /\
       (type it = CONFIGURATION_STRING_TYPE -> GetType v = json_string)).
Proof.
  split.
  - intros Ht val. apply add_to_json_sentinel. auto.
  - intros Hc members.
    destruct (add_to_json_well_formed it members (constructed_well_formed it Hc))
      as (x & _ & Hadd & Hm).
    exists (json_of_value x). split; [ exact Hadd | ]. split; [ exact Hm | ].
    repeat split; intros Ht; rewrite Ht in Hm; cbn in Hm; congruence.
Qed.

(** ** The claims about the registry *)

(** C7, as the code has it. For every registry and every key that is
    not in its map, [get_item] throws the [ValueError] with the message
    "invalid item", the class that every other failure of the header
    throws, and leaves the registry as it was. *)
Theorem get_item_absent_key (cfg : Configuration) (k : configuration_keys) :
  items cfg !! k = None ->
  get_item k cfg = (Throw (mk_exception ValueError "invalid item"), cfg).
Proof. apply get_item_missing. Qed.

(** The outcome of [set_from_json] is decided by the type tag and the
    JSON value; the key and the stored value have no part in it. *)
Lemma set_from_json_outcome (val : Value) (it it' : ConfigurationItem) :
  type it = type it' -> fst (set_from_json val it) = fst (set_from_json val it').
Proof.
  destruct it' as [t' u' s' k']. cbn [type]. intros <-.
  by_tag_and_value it val; reflexivity.
Qed.

Lemma set_from_json_not_double (val : Value) (it : ConfigurationItem) :
  type it = CONFIGURATION_DOUBLE_TYPE -> IsDouble val = false -> IsInt val = false ->
  set_from_json val it =
    (Throw (ValueError_
              ("Input [" ++ c_str (to_string val)
               ++ "] is not double (or something that can be cast to double)")), it).
Proof.
  by_tag_and_value it val; intros Ht Hd Hi;
    try discriminate Ht; try discriminate Hd; try discriminate Hi; reflexivity.
Qed.

(** C8, as the code has it. Every exception of [check_data_type],
    [get_item] and [set_from_json] is a [ValueError] whose message does
    not depend on the key: [check_data_type] always says
    "type does not match" and [get_item] always says "invalid item",
    texts in which no key name occurs, and what [set_from_json] throws is
    the same for any two items of one type tag, whatever their keys.
    The message of the double branch of [set_from_json] carries the text
    of the rejected JSON value between "Input [" and "] is not double (or
    something that can be cast to double)". *)
Theorem messages_are_key_independent :
  (forall t it, t <> type it ->
     thrown (fst (check_data_type t it))
       = Some (mk_exception ValueError "type does not match")) /\
  (forall cfg k, items cfg !! k = None ->
     thrown (fst (get_item k cfg)) = Some (mk_exception ValueError "invalid item")) /\
  (forall k,
     contains (config_key_to_string k) "type does not match" = false /\
     contains (config_key_to_string k) "invalid item" = false) /\
  (forall val it it', type it = type it' ->
     thrown (fst (set_from_json val it)) = thrown (fst (set_from_json val it'))) /\
  (forall val it e, thrown (fst (set_from_json val it)) = Some e -> kind e = ValueError) /\
  (forall val it,
     type it = CONFIGURATION_DOUBLE_TYPE -> IsDouble val = false -> IsInt val = false ->
     thrown (fst (set_from_json val it))
       = Some (mk_exception ValueError
                 ("Input [" ++ c_str (to_string val)
                  ++ "] is not double (or something that can be cast to double)"))).
Proof.
  split; [ intros t it Ht; rewrite check_data_type_ne by exact Ht; reflexivity | ].
  split; [ intros cfg k Hk; rewrite get_item_missing by exact Hk; reflexivity | ].
  split; [ intros k; destruct k; split; reflexivity | ].
  split; [ intros val it it' Ht; rewrite (set_from_json_outcome val it it' Ht); reflexivity | ].
  split.
  - intros val it e. destruct (accepts (type it) val) eqn:Hacc.
    + destruct (set_from_json_accepts val it Hacc) as (it' & -> & _). discriminate.
    + destruct (set_from_json_rejects val it Hacc) as (e' & Hk & ->).
      cbn. intros [= <-]. exact Hk.
  - intros val it Ht Hd Hi. rewrite set_from_json_not_double by assumption. reflexivity.
Qed.

Lemma add_item_present (item it0 : ConfigurationItem) (cfg : Configuration) :
  items cfg !! get_key item = Some it0 -> add_item item cfg = (Return tt, cfg).
Proof. intros H. unfold add_item, modify. rewrite H. reflexivity. Qed.

Lemma add_item_keeps (item it : ConfigurationItem) (cfg : Configuration)
    (k : configuration_keys) :
  items cfg !! k = Some it -> items (snd (add_item item cfg)) !! k = Some it.
Proof.
  intros H. unfold add_item, modify. cbn [snd].
  destruct (items cfg !! get_key item) eqn:Hitem; [ exact H | ].
  cbn [items]. rewrite lookup_insert_ne; [ exact H | congruence ].
Qed.

Lemma expand_X_keeps (rows : list catalog_entry) (cfg : Configuration)
    (k : configuration_keys) (it : ConfigurationItem) :
  items cfg !! k = Some it ->
  fst (expand_X rows cfg) = Return tt /\
  items (snd (expand_X rows cfg)) !! k = Some it.
Proof.
  revert cfg. induction rows as [ | e rows IH ]; intros cfg H.
  - split; [ reflexivity | exact H ].
  - cbn [expand_X]. unfold bind.
    pose proof (add_item_keeps (ConfigurationItem_of_default (Enum e) (Default e)) it cfg k H)
      as Hkeep.
    unfold add_item, modify in *. cbn [snd] in Hkeep.
    apply IH. exact Hkeep.
Qed.

Lemma expand_X_populated (rows : list catalog_entry) (cfg : Configuration) :
  (forall k, is_Some (items cfg !! k)) -> expand_X rows cfg = (Return tt, cfg).
Proof.
  intros Hall. induction rows as [ | e rows IH ]; [ reflexivity | ].
  cbn [expand_X]. unfold bind.
  destruct (Hall (Enum e)) as [it0 Hit0].
  rewrite (add_item_present _ it0); [ exact IH | ].
  unfold get_key. destruct (default_item_type (Enum e) (Default e)) as [_ ->]. exact Hit0.
Qed.

(** C9. [add_item] of an item whose key is already in the map changes
    nothing: the entry keeps its value and its type. Hence [set_defaults]
    keeps every entry that the registry already has, and on a registry
    that has an entry for every key it changes nothing at all. *)
Theorem first_insertion_wins (cfg : Configuration) :
  (forall item it0,
     items cfg !! get_key item = Some it0 -> add_item item cfg = (Return tt, cfg)) /\
  (forall k it,
     items cfg !! k = Some it ->
     fst (set_defaults cfg) = Return tt /\
     items (snd (set_defaults cfg)) !! k = Some it) /\
  ((forall k, is_Some (items cfg !! k)) -> set_defaults cfg = (Return tt, cfg)).
Proof.
  split; [ intros item it0; apply add_item_present | ].
  split; [ intros k it; apply expand_X_keeps | ].
  apply expand_X_populated.
Qed.

(** C10. No row of the key catalog has an integer default, so no item
    of a freshly constructed registry has the type tag
    [CONFIGURATION_INTEGER_TYPE]; none of the getters and setters that
    the header declares carries an integer; and yet the item class has
    an integer constructor and [set_integer], which returns on the item
    so made. *)
Theorem no_integer_setting :
  Forall (fun e => default_type (Default e) <> CONFIGURATION_INTEGER_TYPE)
         CONFIGURATION_KEYS_ENUM /\
  (forall k it,
     fst (get_item k Configuration_new) = Return it ->
     type it <> CONFIGURATION_INTEGER_TYPE) /\
  Forall (fun f => facade_value_type f <> Some CONFIGURATION_INTEGER_TYPE) facade /\
  (forall k i j,
     type (ConfigurationItem_int k i) = CONFIGURATION_INTEGER_TYPE /\
     set_integer j (ConfigurationItem_int k i) = (Return tt, ConfigurationItem_int k j)).
Proof.
  split; [ repeat constructor; discriminate | ].
  split.
  - intros k it. destruct k; vm_compute; intros [= <-]; discriminate.
  - split; [ repeat constructor; discriminate | ].
    intros k i j. split; reflexivity.
Qed.

(** ** The round trip through JSON *)

Lemma c_str_nul_free (s : string) : nul_free s = true -> c_str s = s.
Proof.
  induction s as [ | c s IH ]; [ reflexivity | ].
  cbn. destruct (Ascii.eqb c zero); cbn; [ discriminate | ].
  intros H. rewrite IH by exact H. reflexivity.
Qed.

Lemma nul_free_c_str (s : string) : nul_free (c_str s) = true.
Proof.
  induction s as [ | c s IH ]; [ reflexivity | ].
  cbn. destruct (Ascii.eqb c zero) eqn:Hc; cbn; [ reflexivity | ].
  rewrite Hc. exact IH.
Qed.

Lemma same_shell_refl (it : ConfigurationItem) : same_shell it it.
Proof. repeat split. Qed.

(** [set_from_json] of the member value of [it], run on an item that
    differs from [it] in its value only, gives [it] back. *)
Lemma set_from_json_restores (it target : ConfigurationItem) (x : value) :
  well_formed it -> text_nul_free it -> same_shell target it ->
  stored_value it = Return x ->
  set_from_json (json_of_value x) target = (Return tt, it).
Proof.
  unfold well_formed, text_nul_free, same_shell, stored_value,
    read_v_bool, read_v_integer, read_v_double.
  destruct it as [t u s k], target as [t' u' s' k']. cbn [type scalars v_string key].
  intros Hwf Hnul (-> & -> & Hu & Hs) Hx.
  destruct t; try contradiction; destruct u; try contradiction;
    try (rewrite Hs by discriminate); try (rewrite Hu by reflexivity);
    injection Hx as <-;
    unfold set_from_json, bind, get, lift, throw, ret, assign_v_bool, assign_v_integer,
      assign_v_double, assign_v_string, modify;
    cbn [type scalars v_string key json_of_value IsBool IsInt IsDouble IsString GetBool
         GetInt GetDouble GetString negb andb orb];
    try reflexivity;
    try (rewrite !c_str_nul_free by (try apply nul_free_c_str; auto); reflexivity).
  apply in_int_range_iff in Hwf. rewrite Hwf. reflexivity.
Qed.


Lemma on_item_found {A : Type} (k : configuration_keys) (f : M ConfigurationItem A)
    (cfg : Configuration) (it : ConfigurationItem) :
  items cfg !! k = Some it ->
  on_item k f cfg = (fst (f it), mk_configuration (<[k := snd (f it)]> (items cfg))).
Proof.
  intros H. unfold on_item, bind. rewrite (get_item_found k cfg it H).
  destruct (f it); reflexivity.
Qed.

Lemma on_item_absent {A : Type} (k : configuration_keys) (f : M ConfigurationItem A)
    (cfg : Configuration) :
  items cfg !! k = None ->
  on_item k f cfg = (Throw (ValueError_ "invalid item"), cfg).
Proof.
  intros H. unfold on_item, bind. rewrite (get_item_missing k cfg H). reflexivity.
Qed.

Lemma Configuration_new_key (k : configuration_keys) (d : ConfigurationItem) :
  items Configuration_new !! k = Some d -> key d = k.
Proof.
  destruct (entry_of_row k) as (e & _ & He & <-).
  rewrite (proj1 (Forall_forall _ _) Configuration_new_rows e He).
  intros [= <-]. apply default_item_type.
Qed.






Lemma config_string_to_key_name (k : configuration_keys) :
  config_string_to_key (config_key_to_string k) = Some k.
Proof. destruct k; reflexivity. Qed.





(** ** Further properties of the code *)

Lemma default_item_key (e : catalog_entry) :
  get_key (ConfigurationItem_of_default (Enum e) (Default e)) = Enum e.
Proof. unfold get_key. apply default_item_type. Qed.

(** What the expansion of some rows leaves under a key. *)
Lemma expand_X_lookup (rows : list catalog_entry) (cfg : Configuration)
    (k : configuration_keys) :
  fst (expand_X rows cfg) = Return tt /\
  items (snd (expand_X rows cfg)) !! k =
    match items cfg !! k with
    | Some it => Some it
    | None => item_of_rows rows k
    end.
Proof.
  revert cfg. induction rows as [ | e rows IH ]; intros cfg.
  - cbn. split; [ reflexivity | ]. destruct (items cfg !! k); reflexivity.
  - cbn [expand_X]. unfold bind, add_item, modify.
    rewrite default_item_key.
    unfold item_of_rows. cbn [List.find].
    destruct (items cfg !! Enum e) as [ it0 | ] eqn:He.
    + destruct (IH cfg) as [Hret Hlook]. split; [ exact Hret | ].
      rewrite Hlook. case_bool_decide as Hk.
      * subst k. rewrite He. reflexivity.
      * reflexivity.
    + destruct (IH (mk_configuration (<[Enum e := ConfigurationItem_of_default (Enum e) (Default e)]>
                                       (items cfg)))) as [Hret Hlook].
      split; [ exact Hret | ].
      rewrite Hlook. cbn [items]. case_bool_decide as Hk.
      * subst k. rewrite lookup_insert_eq, He. reflexivity.
      * rewrite lookup_insert_ne by exact Hk. reflexivity.
Qed.

Lemma default_item_total (k : configuration_keys) :
  exists it, default_item k = Some it /\ key it = k.
Proof.
  unfold default_item, item_of_rows.
  destruct (entry_of_row k) as (e & He & _ & Hk). unfold entry_of in He. rewrite He.
  eexists. split; [ reflexivity | ]. rewrite <- Hk. apply default_item_type.
Qed.

(** X1. [set_defaults] on any registry returns, keeps every entry the
    registry has, and gives every key the registry lacks its default
    item; afterwards every key has an entry. *)
Theorem set_defaults_fills_missing_keys (cfg : Configuration) (k : configuration_keys) :
  fst (set_defaults cfg) = Return tt /\
  items (snd (set_defaults cfg)) !! k =
    match items cfg !! k with
    | Some it => Some it
    | None => default_item k
    end /\
  is_Some (items (snd (set_defaults cfg)) !! k).
Proof.
  destruct (expand_X_lookup CONFIGURATION_KEYS_ENUM cfg k) as [Hret Hlook].
  split; [ exact Hret | ]. split; [ exact Hlook | ].
  unfold set_defaults. rewrite Hlook.
  destruct (items cfg !! k); [ eauto | ].
  destruct (default_item_total k) as (it & Hit & _).
  unfold default_item in Hit. rewrite Hit. eauto.
Qed.

(** X2. [set_defaults] is idempotent: run on the registry that a first
    run left, it changes nothing. *)
Theorem set_defaults_idempotent (cfg : Configuration) :
  set_defaults (snd (set_defaults cfg)) = (Return tt, snd (set_defaults cfg)).
Proof.
  apply expand_X_populated. intros k.
  destruct (expand_X_lookup CONFIGURATION_KEYS_ENUM cfg k) as [_ Hlook].
  unfold set_defaults. rewrite Hlook.
  destruct (items cfg !! k); [ eauto | ].
  destruct (default_item_total k) as (it & Hit & _).
  unfold default_item in Hit. rewrite Hit. eauto.
Qed.

Lemma on_item_key_preserving {A : Type} (k : configuration_keys)
    (f : M ConfigurationItem A) (cfg : Configuration) :
  (forall it, key (snd (f it)) = key it) ->
  keyed cfg -> keyed (snd (on_item k f cfg)).
Proof.
  intros Hf Hcfg. destruct (items cfg !! k) as [ it | ] eqn:Hk.
  - rewrite (on_item_found k f cfg it Hk). cbn [snd].
    intros k' it'. cbn [items]. destruct (decide (k = k')) as [<- | Hne].
    + rewrite lookup_insert_eq. intros [= <-]. rewrite Hf. exact (Hcfg k it Hk).
    + rewrite lookup_insert_ne by exact Hne. apply Hcfg.
  - rewrite (on_item_absent k f cfg Hk). exact Hcfg.
Qed.

Lemma add_item_keyed (item : ConfigurationItem) (cfg : Configuration) :
  keyed cfg -> keyed (snd (add_item item cfg)).
Proof.
  intros Hcfg. unfold add_item, modify. cbn [snd].
  destruct (items cfg !! get_key item) eqn:Hitem; [ exact Hcfg | ].
  intros k it. cbn [items]. destruct (decide (get_key item = k)) as [<- | Hne].
  - rewrite lookup_insert_eq. intros [= <-]. reflexivity.
  - rewrite lookup_insert_ne by exact Hne. apply Hcfg.
Qed.

Lemma expand_X_keyed (rows : list catalog_entry) (cfg : Configuration) :
  keyed cfg -> keyed (snd (expand_X rows cfg)).
Proof.
  revert cfg. induction rows as [ | e rows IH ]; intros cfg Hcfg; [ exact Hcfg | ].
  cbn [expand_X]. unfold bind.
  pose proof (add_item_keyed (ConfigurationItem_of_default (Enum e) (Default e)) cfg Hcfg)
    as Hstep.
  unfold add_item, modify in *. cbn [snd] in Hstep. apply IH. exact Hstep.
Qed.

Lemma run_call_keyed (c : registry_call) (cfg : Configuration) :
  keyed cfg -> keyed (snd (run_call c cfg)).
Proof.
  destruct c as [ item | | k w | k val ]; cbn [run_call].
  - apply add_item_keyed.
  - apply expand_X_keyed.
  - apply on_item_key_preserving. intros it. apply run_write_type.
  - apply on_item_key_preserving. intros it. apply set_from_json_type.
Qed.

(** X3. Every item of the map sits under its own key, and stays there:
    the empty map and the freshly constructed registry have the property,
    and [add_item], [set_defaults] and the typed writes and
    [set_from_json] run through [get_item] keep it. So the [get_key] of
    an item that [get_item] returns for a key is that key. *)
Theorem items_stay_under_their_keys (cs : list registry_call) (cfg : Configuration) :
  keyed cfg ->
  keyed (after_calls cs cfg) /\
  keyed (after_calls cs Configuration_new) /\
  forall k it,
    fst (get_item k (after_calls cs cfg)) = Return it -> get_key it = k.
Proof.
  assert (Hgen : forall cs cfg, keyed cfg -> keyed (after_calls cs cfg)).
  { clear. induction cs as [ | c cs IH ]; intros cfg Hcfg; [ exact Hcfg | ].
    cbn. apply IH. apply run_call_keyed. exact Hcfg. }
  intros Hcfg. split; [ apply Hgen; exact Hcfg | ]. split.
  - apply Hgen. intros k it. apply Configuration_new_key.
  - intros k it. pose proof (Hgen cs cfg Hcfg k) as Hk.
    unfold get_item, bind, get.
    destruct (items (after_calls cs cfg) !! k) as [ it' | ]; cbn.
    + intros [= <-]. apply Hk. reflexivity.
    + discriminate.
Qed.

(** X4. [add_item] of an item whose key is not in the map puts the item
    there: [get_item] on that key then returns the item. Whether the key
    was there or not, [add_item] leaves the entries of all other keys as
    they were, and afterwards the key of the item has an entry. *)
Theorem add_item_then_get_item (cfg : Configuration) (item : ConfigurationItem) :
  (items cfg !! get_key item = None ->
     get_item (get_key item) (snd (add_item item cfg))
       = (Return item, snd (add_item item cfg))) /\
  (forall k, k <> get_key item ->
     items (snd (add_item item cfg)) !! k = items cfg !! k) /\
  fst (add_item item cfg) = Return tt /\
  is_Some (items (snd (add_item item cfg)) !! get_key item).
Proof.
  unfold add_item, modify. cbn [fst snd].
  destruct (items cfg !! get_key item) as [ it0 | ] eqn:Hitem.
  - split; [ discriminate | ]. split; [ reflexivity | ]. split; [ reflexivity | ].
    rewrite Hitem. eauto.
  - split.
    + intros _. apply get_item_found. cbn [items]. apply lookup_insert_eq.
    + split; [ | split; [ reflexivity | ] ].
      * intros k Hk. cbn [items]. apply lookup_insert_ne. congruence.
      * cbn [items]. rewrite lookup_insert_eq. eauto.
Qed.

Lemma set_from_json_well_formed (val : Value) (it : ConfigurationItem) :
  well_formed it -> well_formed (snd (set_from_json val it)).
Proof.
  unfold well_formed.
  by_tag_and_value it val; cbn; auto.
  intros _. apply in_int_range_iff. exact Hz.
Qed.

Lemma run_write_well_formed (w : typed_write) (it : ConfigurationItem) :
  (forall i, w = write_integer i -> int_range i \/ type it <> CONFIGURATION_INTEGER_TYPE) ->
  well_formed it -> well_formed (snd (run_write w it)).
Proof.
  intros Hw Hwf. destruct (decide (write_type w = type it)) as [Ht | Ht].
  - destruct w as [ b | i | d | s ];
      unfold run_write, set_bool, set_integer, set_double, set_string, bind;
      rewrite check_data_type_eq by exact Ht;
      unfold well_formed; cbn in *; rewrite <- Ht; auto.
    destruct (Hw i eq_refl) as [Hi | Hne]; [ exact Hi | ].
    exfalso. apply Hne. symmetry. exact Ht.
  - rewrite run_write_mismatch by exact Ht. exact Hwf.
Qed.

Lemma well_formed_stored (it : ConfigurationItem) :
  well_formed it -> exists x, stored_value it = Return x.
Proof.
  intros Hwf. destruct (add_to_json_well_formed it [] Hwf) as (x & Hx & _). eauto.
Qed.

(** The registries that calls reach from a fresh one: every key has a
    well-formed item of its own key and of the type tag of its default
    item, and no item is an integer. *)
Lemma after_calls_invariant (cs : list registry_call) (cfg : Configuration) :
  (forall k, exists it d,
      items cfg !! k = Some it /\ default_item k = Some d /\
      key it = k /\ type it = type d /\ well_formed it /\
      type it <> CONFIGURATION_INTEGER_TYPE) ->
  forall k, exists it d,
      items (after_calls cs cfg) !! k = Some it /\ default_item k = Some d /\
      key it = k /\ type it = type d /\ well_formed it /\
      type it <> CONFIGURATION_INTEGER_TYPE.
Proof.
  revert cfg. induction cs as [ | c cs IH ]; intros cfg Hcfg; [ exact Hcfg | ].
  cbn [after_calls fold_left]. apply IH. clear IH.
  assert (Hall : forall k, is_Some (items cfg !! k)).
  { intros k. destruct (Hcfg k) as (it & _ & -> & _). eauto. }
  assert (Hitem : forall (k0 : configuration_keys) (f : M ConfigurationItem unit),
             (forall it, type (snd (f it)) = type it /\ key (snd (f it)) = key it) ->
             (forall it, well_formed it -> type it <> CONFIGURATION_INTEGER_TYPE ->
                         well_formed (snd (f it))) ->
             forall k, exists it d,
               items (snd (on_item k0 f cfg)) !! k = Some it /\ default_item k = Some d /\
               key it = k /\ type it = type d /\ well_formed it /\
               type it <> CONFIGURATION_INTEGER_TYPE).
  { intros k0 f Hf Hwf k.
    destruct (Hcfg k0) as (it0 & d0 & Hit0 & Hd0 & Hk0 & Ht0 & Hwf0 & Hint0).
    rewrite (on_item_found k0 f cfg it0 Hit0). cbn [snd items].
    destruct (decide (k0 = k)) as [<- | Hne].
    - rewrite lookup_insert_eq. exists (snd (f it0)), d0.
      destruct (Hf it0) as [Hty Hkey]. rewrite Hty, Hkey. auto 10.
    - rewrite lookup_insert_ne by exact Hne. apply Hcfg. }
  destruct c as [ item | | k0 w | k0 val ]; cbn [run_call].
  - destruct (Hall (get_key item)) as [it0 Hit0].
    rewrite (add_item_present item it0 cfg Hit0). exact Hcfg.
  - unfold set_defaults. rewrite (expand_X_populated _ cfg Hall). exact Hcfg.
  - apply Hitem.
    + intros it. apply run_write_type.
    + intros it Hwf Hint. apply run_write_well_formed; auto.
  - apply Hitem.
    + intros it. apply set_from_json_type.
    + intros it Hwf _. apply set_from_json_well_formed. exact Hwf.
Qed.

Lemma Configuration_new_invariant (k : configuration_keys) :
  exists it d,
    items Configuration_new !! k = Some it /\ default_item k = Some d /\
    key it = k /\ type it = type d /\ well_formed it /\
    type it <> CONFIGURATION_INTEGER_TYPE.
Proof.
  destruct (entry_of_row k) as (e & Hfind & He & <-).
  exists (ConfigurationItem_of_default (Enum e) (Default e)),
         (ConfigurationItem_of_default (Enum e) (Default e)).
  split; [ exact (proj1 (Forall_forall _ _) Configuration_new_rows e He) | ].
  split; [ unfold default_item, item_of_rows; unfold entry_of in Hfind;
           rewrite Hfind; reflexivity | ].
  split; [ apply default_item_type | ]. split; [ reflexivity | ].
  assert (Hall : Forall (fun e => well_formed (ConfigurationItem_of_default (Enum e) (Default e))
                            /\ type (ConfigurationItem_of_default (Enum e) (Default e))
                               <> CONFIGURATION_INTEGER_TYPE)
                        CONFIGURATION_KEYS_ENUM)
    by (repeat constructor; discriminate).
  exact (proj1 (Forall_forall _ _) Hall e He).
Qed.

(** X5. After any sequence of calls on a freshly constructed registry
    ([add_item], [set_defaults], typed writes and [set_from_json] through
    [get_item], each returning or throwing), [get_item] still returns an
    item for every key, and that item has the key as its [get_key], the
    type tag of the key's default in the catalog, which is never the
    integer tag, and the active member of the union that its tag
    selects. *)
Theorem fresh_registry_keeps_its_shape (cs : list registry_call) (k : configuration_keys) :
  exists it e,
    entry_of k = Some e /\
    get_item k (after_calls cs Configuration_new)
      = (Return it, after_calls cs Configuration_new) /\
    get_key it = k /\
    type it = default_type (Default e) /\
    type it <> CONFIGURATION_INTEGER_TYPE /\
    well_formed it.
Proof.
  destruct (after_calls_invariant cs Configuration_new Configuration_new_invariant k)
    as (it & d & Hit & Hd & Hk & Ht & Hwf & Hint).
  destruct (entry_of_row k) as (e & Hfind & _ & He).
  exists it, e. split; [ exact Hfind | ].
  split; [ apply get_item_found; exact Hit | ]. split; [ exact Hk | ].
  split; [ | auto ].
  unfold default_item, item_of_rows in Hd. unfold entry_of in Hfind.
  rewrite Hfind in Hd. injection Hd as <-. rewrite Ht. apply default_item_type.
Qed.

(** X6. A properly constructed item never carries a sentinel tag, and
    its tag always selects the active member of the union: a bool item
    holds [v_bool], an integer item holds [v_integer] with an [int] in
    it, a double item holds [v_double]. *)
Theorem tag_selects_active_member (it : ConfigurationItem) :
  constructed it ->
  match type it with
  | CONFIGURATION_BOOL_TYPE => exists b, scalars it = active_v_bool b
  | CONFIGURATION_INTEGER_TYPE => exists i, scalars it = active_v_integer i /\ int_range i
  | CONFIGURATION_DOUBLE_TYPE => exists d, scalars it = active_v_double d
  | CONFIGURATION_STRING_TYPE => True
  | CONFIGURATION_NOT_DEFINED_TYPE | CONFIGURATION_ENDOFLIST_TYPE => False
  end.
Proof.
  intros Hc. pose proof (constructed_well_formed it Hc) as Hwf.
  unfold well_formed in Hwf.
  destruct (type it); destruct (scalars it); try contradiction; eauto.
Qed.

(** X7. No member function runs into undefined behaviour:
    [set_from_json] and the typed writes never do, on any item and any
    JSON value (every JSON getter is called on a value of its own kind
    only); the cast operators and [add_to_json] into a JSON object never
    do on a properly constructed item (no inactive member of the union
    is read). *)
Theorem no_undefined_behaviour (it : ConfigurationItem) :
  (forall val, fst (set_from_json val it) <> Undefined) /\
  (forall w, fst (run_write w it) <> Undefined) /\
  (constructed it ->
     (forall r, fst (run_read r it) <> Undefined) /\
     (forall members, fst (add_to_json it (JObject members)) = Return tt)).
Proof.
  split; [ | split ].
  - intros val. destruct (accepts (type it) val) eqn:Hacc.
    + destruct (set_from_json_accepts val it Hacc) as (it' & -> & _). discriminate.
    + destruct (set_from_json_rejects val it Hacc) as (e & _ & ->). discriminate.
  - intros w. destruct (decide (write_type w = type it)) as [Ht | Ht].
    + destruct (run_write_match w it Ht) as (it' & -> & _). discriminate.
    + rewrite run_write_mismatch by exact Ht. discriminate.
  - intros Hc. pose proof (constructed_well_formed it Hc) as Hwf. split.
    + intros r. destruct (decide (read_type r = type it)) as [Ht | Ht].
      * destruct (well_formed_stored it Hwf) as [x Hx].
        rewrite (run_read_stored r it x Ht Hx). discriminate.
      * rewrite run_read_mismatch by exact Ht. discriminate.
    + intros members.
      destruct (add_to_json_well_formed it members Hwf) as (x & _ & -> & _). reflexivity.
Qed.

(** What [set_from_json] does, by the value it takes. *)
Lemma set_from_json_imported (val : Value) (it : ConfigurationItem) :
  match imported (type it) val with
  | Some x =>
      exists it',
        set_from_json val it = (Return tt, it') /\
        stored_value it' = Return x /\ well_formed it' /\ text_nul_free it' /\
        same_shell it it'
  | None => exists e, kind e = ValueError /\ set_from_json val it = (Throw e, it)
  end.
Proof.
  unfold imported, stored_value, well_formed, text_nul_free, same_shell,
    read_v_bool, read_v_integer, read_v_double.
  by_tag_and_value it val; cbn;
    first
      [ eexists; (split; [ | reflexivity ]); reflexivity
      | eexists; (split; [ reflexivity | ]); cbn;
        (split; [ reflexivity | ]);
        (split; [ first [ exact I | apply in_int_range_iff; exact Hz ] | ]);
        (split; [ first [ discriminate | intros _; apply nul_free_c_str ] | ]);
        repeat split; auto; try discriminate;
        intros Hne; exfalso; exact (Hne eq_refl) ].
Qed.

(** X8. What comes in through [set_from_json] is what is read and what
    goes out: when the item takes the JSON value, the next read of the
    matching type returns its content and [add_to_json] exports it, a
    JSON bool or double as it was, a string up to its first NUL, and an
    integer given to a double item as the double that
    [static_cast<double>] makes of it; when the item does not take the
    value, the call throws a [ValueError] and the item is as before. *)
Theorem import_then_read_and_export (it : ConfigurationItem) (val : Value) :
  (forall x, imported (type it) val = Some x ->
     exists it',
       set_from_json val it = (Return tt, it') /\
       (forall r, read_type r = type it -> run_read r it' = (Return x, it')) /\
       (forall members,
          add_to_json it' (JObject members)
            = (Return tt,
               JObject (members ++ [(config_key_to_string (key it), json_of_value x)])))) /\
  (imported (type it) val = None ->
     exists e, kind e = ValueError /\ set_from_json val it = (Throw e, it)).
Proof.
  pose proof (set_from_json_imported val it) as H.
  split.
  - intros x Hx. rewrite Hx in H.
    destruct H as (it' & Hset & Hst & Hwf & _ & (Hk & Ht & _)).
    exists it'. split; [ exact Hset | ]. split.
    + intros r Hr. apply run_read_stored; congruence.
    + intros members.
      destruct (add_to_json_well_formed it' members Hwf) as (x' & Hx' & Hadd & _).
      rewrite Hadd. rewrite Hst in Hx'. injection Hx' as <-. rewrite Hk. reflexivity.
  - intros Hnone. rewrite Hnone in H. exact H.
Qed.

(** X9. A value that came in through [set_from_json] makes the round
    trip exactly: [add_to_json] of the item that a successful
    [set_from_json] left gives a member from which [set_from_json]
    restores that same item, without any condition on the text. *)
Theorem imported_value_round_trips (it it' : ConfigurationItem) (val : Value) :
  set_from_json val it = (Return tt, it') ->
  exists v,
    add_to_json it' (JObject []) =
      (Return tt, JObject [(config_key_to_string (key it'), v)]) /\
    set_from_json v it' = (Return tt, it') /\
    set_from_json v it = (Return tt, it').
Proof.
  intros Hset. pose proof (set_from_json_imported val it) as H.
  destruct (imported (type it) val) as [ x | ].
  - destruct H as (it'' & Hset' & Hst & Hwf & Hnul & Hshell).
    rewrite Hset in Hset'. injection Hset' as <-.
    destruct (add_to_json_well_formed it' [] Hwf) as (x' & Hx' & Hadd & _).
    rewrite Hst in Hx'. injection Hx' as <-.
    exists (json_of_value x). split; [ exact Hadd | ]. split.
    + apply set_from_json_restores; auto using same_shell_refl.
    + apply set_from_json_restores; auto.
  - destruct H as (e & _ & Hthrow). rewrite Hset in Hthrow. discriminate.
Qed.

Lemma same_shell_stored_eq (a b : ConfigurationItem) :
  same_shell a b -> well_formed a -> well_formed b ->
  stored_value a = stored_value b -> a = b.
Proof.
  unfold same_shell, well_formed, stored_value, read_v_bool, read_v_integer, read_v_double.
  destruct a as [ta ua sa ka], b as [tb ub sb kb]. cbn [type scalars v_string key].
  intros (-> & -> & Hu & Hs) Ha Hb Hv.
  destruct tb; try contradiction; destruct ua; try contradiction;
    destruct ub; try contradiction;
    try (assert (Hs' : sa = sb) by (apply Hs; discriminate));
    try (pose proof (Hu eq_refl) as Hu');
    injection Hv as Hv; congruence.
Qed.

Lemma same_shell_chain (a b c : ConfigurationItem) :
  same_shell a b -> same_shell a c -> same_shell b c.
Proof.
  unfold same_shell. intros (Hk & Ht & Hu & Hs) (Hk' & Ht' & Hu' & Hs').
  assert (Hbc : type b = type c) by congruence.
  repeat split; try congruence.
  - intros Hc. rewrite <- Hu' by exact Hc. symmetry. apply Hu. congruence.
  - intros Hc. rewrite <- Hs' by exact Hc. symmetry. apply Hs. congruence.
Qed.

(** X10. The last write wins and keeps no trace of the one before: a
    typed write after a typed write of the same type, and an accepted
    [set_from_json] after any [set_from_json], leave the item that the
    second call alone would have left. *)
Theorem last_write_wins (it : ConfigurationItem) :
  (forall w1 w2, write_type w1 = write_type w2 ->
     snd (run_write w2 (snd (run_write w1 it))) = snd (run_write w2 it)) /\
  (forall v1 v2, accepts (type it) v2 = true ->
     snd (set_from_json v2 (snd (set_from_json v1 it))) = snd (set_from_json v2 it)).
Proof.
  split.
  - intros w1 w2 Hw. destruct it as [t u s k].
    destruct t; destruct w1; destruct w2; try discriminate Hw; reflexivity.
  - intros v1 v2 Hacc.
    assert (Hshell : same_shell it (snd (set_from_json v1 it))).
    { pose proof (set_from_json_imported v1 it) as H1.
      destruct (imported (type it) v1).
      - destruct H1 as (it1 & -> & _ & _ & _ & Hs). exact Hs.
      - destruct H1 as (e & _ & ->). apply same_shell_refl. }
    destruct (set_from_json_type v1 it) as [Ht1 _].
    pose proof (set_from_json_imported v2 it) as H2.
    pose proof (set_from_json_imported v2 (snd (set_from_json v1 it))) as H2'.
    rewrite Ht1 in H2'.
    destruct (imported (type it) v2) as [ x | ].
    + destruct H2 as (a & -> & Ha & Hwa & _ & Hsa).
      destruct H2' as (b & -> & Hb & Hwb & _ & Hsb).
      cbn [snd]. apply same_shell_stored_eq; auto; [ | congruence ].
      apply (same_shell_chain (snd (set_from_json v1 it))); [ exact Hsb | ].
      apply (same_shell_chain it); [ exact Hshell | exact Hsa ].
    + destruct H2 as (e & _ & Hthrow).
      destruct (set_from_json_accepts v2 it Hacc) as (it' & Hret & _).
      rewrite Hret in Hthrow. discriminate.
Qed.

(** X11. [add_to_json] only ever appends: when it returns, the JSON
    value was an object and has one more member at its end, named after
    the key, all members before it unchanged; when it does not return,
    the JSON value is as it was. It does not look for a member of the
    same name: run twice on a properly constructed item it leaves the
    member twice. *)
Theorem add_to_json_appends_one_member (it : ConfigurationItem) (val : Value) :
  (forall val', add_to_json it val = (Return tt, val') ->
     exists members v,
       val = JObject members /\
       val' = JObject (members ++ [(config_key_to_string (key it), v)])) /\
  (forall o val', add_to_json it val = (o, val') -> returned o = false -> val' = val) /\
  (constructed it ->
     forall members, exists v,
       (add_to_json it ;; add_to_json it) (JObject members)
         = (Return tt,
            JObject (members ++ [ (config_key_to_string (key it), v);
                                  (config_key_to_string (key it), v) ]))).
Proof.
  split; [ | split ].
  - unfold add_to_json, read_v_bool, read_v_integer, read_v_double.
    rewrite c_str_key_name.
    destruct it as [t u s k]; destruct t; destruct u; destruct val;
      cbn; intros val' H; try discriminate H; injection H as <-; eauto.
  - unfold add_to_json, read_v_bool, read_v_integer, read_v_double.
    destruct it as [t u s k]; destruct t; destruct u; destruct val;
      cbn; intros o val' H; injection H as <- <-; cbn; intros Hr;
      try discriminate Hr; reflexivity.
  - intros Hc members. pose proof (constructed_well_formed it Hc) as Hwf.
    destruct (add_to_json_well_formed it members Hwf) as (x & Hx & Hadd & _).
    exists (json_of_value x). unfold bind. rewrite Hadd.
    destruct (add_to_json_well_formed it
                (members ++ [(config_key_to_string (key it), json_of_value x)]) Hwf)
      as (x' & Hx' & Hadd' & _).
    rewrite Hadd'. rewrite Hx in Hx'. injection Hx' as <-.
    rewrite <- app_assoc. reflexivity.
Qed.

Lemma catalog_rows_are_first (e : catalog_entry) :
  e ∈ CONFIGURATION_KEYS_ENUM -> entry_of (Enum e) = Some e.
Proof.
  revert e. apply Forall_forall. repeat constructor.
Qed.

(** X12. The table gives a 1-1 representation of the keys: no key and
    no name occurs in two rows, every key has a row, whose name
    [config_key_to_string] returns, a name is never empty and has no NUL
    character, and two keys with the same name are the same key. *)
Theorem key_names_are_one_to_one :
  NoDup (map Enum CONFIGURATION_KEYS_ENUM) /\
  NoDup (map String_ CONFIGURATION_KEYS_ENUM) /\
  (forall k,
     (exists e, e ∈ CONFIGURATION_KEYS_ENUM /\ Enum e = k /\
                config_key_to_string k = String_ e) /\
     config_key_to_string k <> EmptyString /\
     nul_free (config_key_to_string k) = true) /\
  (forall k k', config_key_to_string k = config_key_to_string k' -> k = k').
Proof.
  split; [ apply (bool_decide_unpack _); vm_compute; exact I | ].
  split; [ apply (bool_decide_unpack _); vm_compute; exact I | ].
  split.
  - intros k. split.
    + destruct (entry_of_row k) as (e & Hfind & He & Hk).
      exists e. split; [ exact He | ]. split; [ exact Hk | ].
      unfold config_key_to_string. rewrite Hfind. reflexivity.
    + destruct k; (split; [ discriminate | reflexivity ]).
  - intros k k' H.
    assert (Hk : config_string_to_key (config_key_to_string k) = Some k)
      by apply config_string_to_key_name.
    rewrite H, config_string_to_key_name in Hk. congruence.
Qed.

(** X13. Only an integer that fits an [int] is taken: a JSON integer
    outside the range of [int] is refused with a [ValueError] by an
    integer item and by a double item alike, and a JSON double is refused
    by an integer item, however integral; the item is as before. *)
Theorem integer_outside_int_is_refused (it : ConfigurationItem) :
  (forall z, ~ int_range z ->
     type it = CONFIGURATION_INTEGER_TYPE \/ type it = CONFIGURATION_DOUBLE_TYPE ->
     exists e, kind e = ValueError /\ set_from_json (JInteger z) it = (Throw e, it)) /\
  (forall d, type it = CONFIGURATION_INTEGER_TYPE ->
     set_from_json (JDouble d) it
       = (Throw (mk_exception ValueError "Input is not integer"), it)).
Proof.
  split.
  - intros z Hz Ht. apply set_from_json_rejects.
    assert (Hr : in_int_range z = false).
    { destruct (in_int_range z) eqn:E; [ | reflexivity ].
      exfalso. apply Hz. apply in_int_range_iff. exact E. }
    destruct Ht as [-> | ->]; cbn; exact Hr.
  - intros d Ht. destruct it as [t u s k]. cbn in Ht. subst t. reflexivity.
Qed.

Lemma on_item_throw_unchanged {A : Type} (k : configuration_keys)
    (f : M ConfigurationItem A) (cfg : Configuration) (e : exception) :
  (forall it e', fst (f it) = Throw e' -> snd (f it) = it) ->
  fst (on_item k f cfg) = Throw e -> snd (on_item k f cfg) = cfg.
Proof.
  intros Hf. destruct (items cfg !! k) as [ it | ] eqn:Hk.
  - rewrite (on_item_found k f cfg it Hk). cbn [fst snd]. intros Hthrow.
    rewrite (Hf it e Hthrow). destruct cfg as [m]. cbn [items] in *. f_equal.
    apply insert_id. exact Hk.
  - rewrite (on_item_absent k f cfg Hk). reflexivity.
Qed.

(** X14. A failed update through [get_item] leaves the whole registry as
    it was: when [get_item(key).set_...(val)] or
    [get_item(key).set_from_json(val)] throws, because the key is absent
    or because the item refuses the value, no entry of the map has
    changed; and on an absent key the exception is the "invalid item" of
    [get_item]. *)
Theorem failed_registry_update_changes_nothing (cfg : Configuration)
    (k : configuration_keys) (e : exception) :
  (forall w, fst (on_item k (run_write w) cfg) = Throw e ->
     snd (on_item k (run_write w) cfg) = cfg) /\
  (forall val, fst (on_item k (set_from_json val) cfg) = Throw e ->
     snd (on_item k (set_from_json val) cfg) = cfg) /\
  (items cfg !! k = None ->
     forall w val,
       on_item k (run_write w) cfg = (Throw (mk_exception ValueError "invalid item"), cfg) /\
       on_item k (set_from_json val) cfg
         = (Throw (mk_exception ValueError "invalid item"), cfg)).
Proof.
  split; [ | split ].
  - intros w. apply on_item_throw_unchanged. intros it e'. apply run_write_throw.
  - intros val. apply on_item_throw_unchanged. intros it e'. apply set_from_json_throw.
  - intros Hk w val. split; apply on_item_absent; exact Hk.
Qed.

(** X15. No call removes a key, and a call on the item of one key never
    touches the item of another: after [add_item], [set_defaults], a
    typed write or [set_from_json] through [get_item], every key that had
    an entry still has one, and after a write or [set_from_json] on one
    key the entry of every other key is the same. *)
Theorem calls_keep_keys_and_other_items (cfg : Configuration)
    (k0 k : configuration_keys) (w : typed_write) (val : Value) :
  (forall c, is_Some (items cfg !! k) -> is_Some (items (snd (run_call c cfg)) !! k)) /\
  (k0 <> k ->
     items (snd (on_item k0 (run_write w) cfg)) !! k = items cfg !! k /\
     items (snd (on_item k0 (set_from_json val) cfg)) !! k = items cfg !! k) /\
  (is_Some (items (snd (on_item k0 (run_write w) cfg)) !! k) <-> is_Some (items cfg !! k)) /\
  (is_Some (items (snd (on_item k0 (set_from_json val) cfg)) !! k)
   <-> is_Some (items cfg !! k)).
Proof.
  assert (Hother : forall (f : M ConfigurationItem unit),
             k0 <> k -> items (snd (on_item k0 f cfg)) !! k = items cfg !! k).
  { intros f Hne. destruct (items cfg !! k0) as [ it | ] eqn:Hk0.
    - rewrite (on_item_found k0 f cfg it Hk0). cbn [snd items].
      apply lookup_insert_ne. exact Hne.
    - rewrite (on_item_absent k0 f cfg Hk0). reflexivity. }
  assert (Hsame : forall (k1 : configuration_keys) (f : M ConfigurationItem unit),
             is_Some (items (snd (on_item k1 f cfg)) !! k) <-> is_Some (items cfg !! k)).
  { intros k1 f. destruct (items cfg !! k1) as [ it | ] eqn:Hk1.
    - rewrite (on_item_found k1 f cfg it Hk1). cbn [snd items].
      destruct (decide (k1 = k)) as [<- | Hne].
      + rewrite lookup_insert_eq, Hk1. split; eauto.
      + rewrite lookup_insert_ne by exact Hne. reflexivity.
    - rewrite (on_item_absent k1 f cfg Hk1). reflexivity. }
  split.
  - intros c [it Hit]. destruct c as [ item | | k1 w1 | k1 val1 ]; cbn [run_call].
    + rewrite (add_item_keeps item it cfg k Hit). eauto.
    + destruct (expand_X_keeps CONFIGURATION_KEYS_ENUM cfg k it Hit) as [_ Hkeep].
      unfold set_defaults. rewrite Hkeep. eauto.
    + apply Hsame. eauto.
    + apply Hsame. eauto.
  - split; [ | split ].
    + intros Hne. split; apply Hother; exact Hne.
    + apply Hsame.
    + apply Hsame.
Qed.

(** X16. An item reads back what it was constructed with: the cast
    operator of the constructor's type returns the value given to the
    constructor, a [const char *] up to its first NUL and a
    [std::string] whole, and every other cast operator throws
    "type does not match". An item constructed from an [int] is read by
    no cast operator: all three throw. *)
Theorem constructed_value_reads_back (k : configuration_keys) (r : typed_read) :
  let mismatch := Throw (mk_exception ValueError "type does not match") in
  (forall b,
     run_read r (ConfigurationItem_bool k b)
       = (match r with read_bool => Return (bool_value b) | _ => mismatch end,
          ConfigurationItem_bool k b)) /\
  (forall d,
     run_read r (ConfigurationItem_double k d)
       = (match r with read_double => Return (double_value d) | _ => mismatch end,
          ConfigurationItem_double k d)) /\
  (forall s,
     run_read r (ConfigurationItem_string k s)
       = (match r with read_string => Return (string_value s) | _ => mismatch end,
          ConfigurationItem_string k s)) /\
  (forall s,
     run_read r (ConfigurationItem_cstring k s)
       = (match r with read_string => Return (string_value (c_str s)) | _ => mismatch end,
          ConfigurationItem_cstring k s)) /\
  (forall i,
     run_read r (ConfigurationItem_int k i) = (mismatch, ConfigurationItem_int k i)).
Proof.
  destruct r; repeat split; reflexivity.
Qed.

(** X17. On a freshly constructed registry, after any sequence of
    [add_item], [set_defaults], typed writes and [set_from_json] through
    [get_item] (each returning or throwing), a typed write or read
    through [get_item] returns exactly when its type is the type of the
    key's default in the catalog, and otherwise throws
    "type does not match"; a write that returns is read back by the read
    of the same type. *)
Theorem registry_typing_is_permanent (cs : list registry_call) (k : configuration_keys)
    (e : catalog_entry) :
  entry_of k = Some e ->
  let cfg := after_calls cs Configuration_new in
  (forall w,
     (write_type w = default_type (Default e) ->
        fst (on_item k (run_write w) cfg) = Return tt /\
        forall r, read_type r = write_type w ->
          fst (on_item k (run_read r) (snd (on_item k (run_write w) cfg)))
            = Return (written_value w)) /\
     (write_type w <> default_type (Default e) ->
        on_item k (run_write w) cfg
          = (Throw (mk_exception ValueError "type does not match"), cfg))) /\
  (forall r,
     (read_type r = default_type (Default e) ->
        exists x, on_item k (run_read r) cfg = (Return x, cfg)) /\
     (read_type r <> default_type (Default e) ->
        on_item k (run_read r) cfg
          = (Throw (mk_exception ValueError "type does not match"), cfg))).
Proof.
  intros He cfg.
  destruct (after_calls_invariant cs Configuration_new Configuration_new_invariant k)
    as (it & d & Hit & Hd & Hk & Ht & Hwf & Hint).
  fold cfg in Hit.
  assert (Hty : type it = default_type (Default e)).
  { unfold default_item, item_of_rows in Hd. unfold entry_of in He.
    rewrite He in Hd. injection Hd as <-. rewrite Ht. apply default_item_type. }
  rewrite <- Hty.
  assert (Hid : mk_configuration (<[k := it]> (items cfg)) = cfg).
  { destruct cfg as [m]. cbn [items] in *. f_equal. apply insert_id. exact Hit. }
  split.
  - intros w. split.
    + intros Hw. rewrite (on_item_found k _ cfg it Hit).
      destruct (run_write_match w it Hw) as (it' & Hrun & Hty' & _ & Hst).
      rewrite Hrun. cbn [fst snd]. split; [ reflexivity | ].
      intros r Hr.
      rewrite (on_item_found k _ _ it'); [ | cbn [items]; apply lookup_insert_eq ].
      rewrite (run_read_stored r it' (written_value w)); [ reflexivity | congruence | exact Hst ].
    + intros Hw. rewrite (on_item_found k _ cfg it Hit).
      rewrite (run_write_mismatch w it Hw). cbn [fst snd]. rewrite Hid. reflexivity.
  - intros r. split.
    + intros Hr. destruct (well_formed_stored it Hwf) as [x Hx]. exists x.
      rewrite (on_item_found k _ cfg it Hit).
      rewrite (run_read_stored r it x Hr Hx). cbn [fst snd]. rewrite Hid. reflexivity.
    + intros Hr. rewrite (on_item_found k _ cfg it Hit).
      rewrite (run_read_mismatch r it Hr). cbn [fst snd]. rewrite Hid. reflexivity.
Qed.

End WithJsonWriter.

(** ** The claims on concrete inputs *)

(** C1 at the row of [SAVE_RAW_TABLES]. *)
Lemma fresh_registry_is_total_witness :
  let e := X SAVE_RAW_TABLES "SAVE_RAW_TABLES" (default_bool false)
             "If true, the raw, uncompressed tables will also be written to file" in
  e ∈ CONFIGURATION_KEYS_ENUM /\
  exists it,
    get_item SAVE_RAW_TABLES Configuration_new = (Return it, Configuration_new) /\
    key it = SAVE_RAW_TABLES /\
    type it = CONFIGURATION_BOOL_TYPE.
Proof.
  intros e.
  assert (He : e ∈ CONFIGURATION_KEYS_ENUM) by (repeat constructor).
  split; [ exact He | ].
  exact (fresh_registry_is_total e He).
Defined.

(** C2 as stated fails: a [double] written to, or read from, a bool item
    is refused with a [ValueError], not with an exception of the kind
    [TypeMismatch]. *)
Lemma mismatch_throws_ValueError :
  let it := ConfigurationItem_bool NORMALIZE_GAS_CONSTANTS true in
  type it <> CONFIGURATION_DOUBLE_TYPE /\
  fst (set_double 1.5 it) = Throw (mk_exception ValueError "type does not match") /\
  fst (operator_double it) = Throw (mk_exception ValueError "type does not match") /\
  ~ (exists e, fst (set_double 1.5 it) = Throw e /\ kind e = TypeMismatch) /\
  ~ (exists e, fst (operator_double it) = Throw e /\ kind e = TypeMismatch).
Proof.
  cbn zeta. split; [ discriminate | ].
  split; [ reflexivity | ]. split; [ reflexivity | ].
  split; intros (e & He & Hk); cbn in He; injection He as <-; discriminate Hk.
Qed.

(** C2 on the bool item of [NORMALIZE_GAS_CONSTANTS]: a double is
    refused, [false] is written and read back. *)
Lemma type_tag_is_fixed_witness :
  let it := ConfigurationItem_bool NORMALIZE_GAS_CONSTANTS true in
  write_type (write_double 1.5) <> type it /\
  read_type read_double <> type it /\
  write_type (write_bool false) = type it /\
  read_type read_bool = type it /\
  run_write (write_double 1.5) it = (Throw (ValueError_ "type does not match"), it) /\
  run_read read_double it = (Throw (ValueError_ "type does not match"), it) /\
  exists it',
    run_write (write_bool false) it = (Return tt, it') /\
    run_read read_bool it' = (Return (bool_value false), it').
Proof.
  intros it.
  assert (H1 : write_type (write_double 1.5) <> type it) by discriminate.
  assert (H2 : read_type read_double <> type it) by discriminate.
  assert (H3 : write_type (write_bool false) = type it) by reflexivity.
  assert (H4 : read_type read_bool = type it) by reflexivity.
  repeat (split; [ assumption | ]).
  split; [ exact (proj1 (type_tag_is_fixed literal_text it (write_double 1.5) read_double JNull) H1) | ].
  split; [ exact (proj1 (proj2 (type_tag_is_fixed literal_text it (write_double 1.5) read_double JNull)) H2) | ].
  destruct (type_tag_is_fixed literal_text it (write_bool false) read_bool JNull)
    as (_ & _ & _ & _ & _ & H).
  destruct (H H3) as (it' & Hw & _ & Hr).
  exists it'. split; [ exact Hw | exact (Hr H4) ].
Defined.

(** C3 on the double item of [MAXIMUM_TABLE_DIRECTORY_SIZE_IN_GB] with
    the JSON integer 2, and on a bool item with a JSON string. *)
Lemma set_from_json_typing_witness :
  let it := ConfigurationItem_double MAXIMUM_TABLE_DIRECTORY_SIZE_IN_GB 1.0 in
  let flag := ConfigurationItem_bool SAVE_RAW_TABLES false in
  type it = CONFIGURATION_DOUBLE_TYPE /\ IsInt (JInteger 2) = true /\
  (exists i,
     GetInt (JInteger 2) = Return i /\
     set_from_json literal_text (JInteger 2) it =
       (Return tt,
        mk_item CONFIGURATION_DOUBLE_TYPE (active_v_double (double_of_int i))
                (v_string it) (key it)) /\
     integer_of_double (double_of_int i) = Some i) /\
  int_range (-2147483648) /\
  integer_of_double (double_of_int (-2147483648)) = Some (-2147483648) /\
  type flag = CONFIGURATION_BOOL_TYPE /\ IsBool (JString "on") = false /\
  IsBool (JBool true) = true /\
  (exists e, kind e = ValueError /\
     set_from_json literal_text (JString "on") flag = (Throw e, flag)) /\
  (exists flag', set_from_json literal_text (JBool true) flag = (Return tt, flag')).
Proof.
  intros it flag.
  assert (Hin : (CONFIGURATION_BOOL_TYPE, IsBool)
                ∈ [ (CONFIGURATION_BOOL_TYPE, IsBool);
                    (CONFIGURATION_INTEGER_TYPE, IsInt);
                    (CONFIGURATION_STRING_TYPE, IsString) ]) by (repeat constructor).
  split; [ reflexivity | ]. split; [ reflexivity | ].
  assert (Hmin : int_range (-2147483648)) by (unfold int_range, INT_MIN, INT_MAX; lia).
  split; [ exact (proj1 (set_from_json_typing literal_text it (JInteger 2)) eq_refl eq_refl) | ].
  split; [ exact Hmin | ].
  split; [ exact (proj1 (proj2 (set_from_json_typing literal_text it JNull))
                    (-2147483648) Hmin) | ].
  split; [ reflexivity | ]. split; [ reflexivity | ]. split; [ reflexivity | ].
  split.
  - exact (proj2 (proj2 (proj2 (proj2 (set_from_json_typing literal_text flag (JString "on"))))
                    CONFIGURATION_BOOL_TYPE IsBool Hin eq_refl) eq_refl).
  - exact (proj1 (proj2 (proj2 (proj2 (set_from_json_typing literal_text flag (JBool true))))
                    CONFIGURATION_BOOL_TYPE IsBool Hin eq_refl) eq_refl).
Defined.

(** C3 as stated fails: the JSON integer 3000000000 does not fit an
    [int], and the double item of [MAXIMUM_TABLE_DIRECTORY_SIZE_IN_GB] in
    a freshly constructed registry refuses it with a [ValueError] and
    keeps its value. *)
Lemma integer_beyond_int_is_not_widened :
  exists it,
    get_item MAXIMUM_TABLE_DIRECTORY_SIZE_IN_GB Configuration_new
      = (Return it, Configuration_new) /\
    type it = CONFIGURATION_DOUBLE_TYPE /\
    GetType (JInteger 3000000000) = json_number /\
    IsInt (JInteger 3000000000) = false /\
    set_from_json sample_to_string (JInteger 3000000000) it
      = (Throw (mk_exception ValueError
                  "Input [3000000000] is not double (or something that can be cast to double)"), it) /\
    ~ (exists it', set_from_json sample_to_string (JInteger 3000000000) it = (Return tt, it')) /\
    operator_double it = (Return 1.0%float, it).
Proof.
  exists (ConfigurationItem_double MAXIMUM_TABLE_DIRECTORY_SIZE_IN_GB 1.0).
  split; [ apply get_item_found; vm_compute; reflexivity | ].
  split; [ reflexivity | ]. split; [ reflexivity | ]. split; [ reflexivity | ].
  split; [ reflexivity | ]. split; [ | reflexivity ].
  intros (it' & H). discriminate H.
Qed.



(** The registry of C4 with a NUL written through the string setter: the
    exported document, imported into a fresh registry, gives the text up
    to the NUL. *)
Example registry_round_trip_loses_text_after_nul :
  let ws := [ config_string ALTERNATIVE_TABLES_DIRECTORY text_with_nul ] in
  exists cfg doc cfg',
    run_config_writes ws Configuration_new = (Return tt, cfg) /\
    get_config_as_json cfg = Return doc /\
    set_config_json literal_text doc Configuration_new = (Return tt, cfg') /\
    fst (get_config_string ALTERNATIVE_TABLES_DIRECTORY cfg) = Return text_with_nul /\
    fst (get_config_string ALTERNATIVE_TABLES_DIRECTORY cfg') = Return "a"%string.
Proof.
  cbn zeta. eexists. eexists. eexists.
  split; [ reflexivity | ]. split; [ reflexivity | ]. split; [ reflexivity | ].
  split; reflexivity.
Qed.

(** C5 on a bool item: a JSON string and a string write are refused and
    the item is as before. *)
Lemma failed_update_is_atomic_witness :
  let it := ConfigurationItem_bool CRITICAL_WITHIN_1UK true in
  let e1 := mk_exception ValueError "Input is not boolean" in
  let e2 := mk_exception ValueError "type does not match" in
  fst (set_from_json literal_text (JString "no") it) = Throw e1 /\
  fst (run_write (write_string "no") it) = Throw e2 /\
  snd (set_from_json literal_text (JString "no") it) = it /\
  snd (run_write (write_string "no") it) = it.
Proof.
  intros it e1 e2.
  assert (H1 : fst (set_from_json literal_text (JString "no") it) = Throw e1) by reflexivity.
  assert (H2 : fst (run_write (write_string "no") it) = Throw e2) by reflexivity.
  split; [ exact H1 | ]. split; [ exact H2 | ]. split.
  - exact (proj1 (failed_update_is_atomic literal_text it e1) (JString "no") H1).
  - exact (proj2 (failed_update_is_atomic literal_text it e2) (write_string "no") H2).
Defined.

(** C6 as stated fails: on an item with the tag
    [CONFIGURATION_NOT_DEFINED_TYPE], [add_to_json] throws a
    [ValueError], not an exception of the kind [InternalError]. *)
Lemma undefined_tag_throws_ValueError :
  let it := mk_item CONFIGURATION_NOT_DEFINED_TYPE no_active_member EmptyString
                    NORMALIZE_GAS_CONSTANTS in
  fst (add_to_json it (JObject [])) = Throw (mk_exception ValueError EmptyString) /\
  ~ (exists e, fst (add_to_json it (JObject [])) = Throw e /\ kind e = InternalError).
Proof.
  cbn zeta. split; [ reflexivity | ].
  intros (e & He & Hk). cbn in He. injection He as <-. discriminate Hk.
Qed.

(** C6 on an item with the undefined tag and on a constructed double
    item. *)
Lemma add_to_json_mirrors_type_witness :
  let undefined := mk_item CONFIGURATION_NOT_DEFINED_TYPE no_active_member EmptyString
                           NORMALIZE_GAS_CONSTANTS in
  let it := ConfigurationItem_double PHASE_ENVELOPE_STARTING_PRESSURE_PA 100.0 in
  type undefined = CONFIGURATION_NOT_DEFINED_TYPE /\
  constructed literal_text it /\
  add_to_json undefined (JObject []) = (Throw (mk_exception ValueError EmptyString), JObject []) /\
  exists v,
    add_to_json it (JObject []) =
      (Return tt, JObject [(config_key_to_string (key it), v)]) /\
    GetType v = json_number.
Proof.
  intros undefined it.
  assert (Hc : constructed literal_text it) by apply made_double.
  split; [ reflexivity | ]. split; [ exact Hc | ]. split.
  - exact (proj1 (add_to_json_mirrors_type literal_text undefined) eq_refl (JObject [])).
  - destruct (proj2 (add_to_json_mirrors_type literal_text it) Hc [])
      as (v & Hadd & _ & _ & _ & Hd & _).
    exists v. split; [ exact Hadd | exact (Hd eq_refl) ].
Defined.

(** C7 as stated fails: after [get_items().erase(SAVE_RAW_TABLES)] the
    key is absent, and [get_item] throws a [ValueError], not an exception
    of the kind [NotFound]. *)
Lemma absent_key_throws_ValueError :
  let cfg := mk_configuration (delete SAVE_RAW_TABLES (get_items Configuration_new)) in
  items cfg !! SAVE_RAW_TABLES = None /\
  fst (get_item SAVE_RAW_TABLES cfg) = Throw (mk_exception ValueError "invalid item") /\
  ~ (exists e, fst (get_item SAVE_RAW_TABLES cfg) = Throw e /\ kind e = NotFound).
Proof.
  cbn zeta. split; [ reflexivity | ]. split; [ reflexivity | ].
  intros (e & He & Hk). vm_compute in He. injection He as <-. discriminate Hk.
Qed.

(** C7 on the registry that lost [SAVE_RAW_TABLES]. *)
Lemma get_item_absent_key_witness :
  let cfg := mk_configuration (delete SAVE_RAW_TABLES (get_items Configuration_new)) in
  items cfg !! SAVE_RAW_TABLES = None /\
  get_item SAVE_RAW_TABLES cfg = (Throw (mk_exception ValueError "invalid item"), cfg).
Proof.
  intros cfg.
  assert (H : items cfg !! SAVE_RAW_TABLES = None) by reflexivity.
  split; [ exact H | exact (get_item_absent_key cfg SAVE_RAW_TABLES H) ].
Defined.

(** C8 as stated fails: the messages of [check_data_type] and of the bool
    branch of [set_from_json] on the item of [NORMALIZE_GAS_CONSTANTS],
    and of [get_item] on a registry without that key, do not contain the
    name of the key. *)
Lemma message_does_not_name_key :
  let it := ConfigurationItem_bool NORMALIZE_GAS_CONSTANTS true in
  let cfg := mk_configuration (delete NORMALIZE_GAS_CONSTANTS (get_items Configuration_new)) in
  config_key_to_string NORMALIZE_GAS_CONSTANTS = "NORMALIZE_GAS_CONSTANTS"%string /\
  (exists e,
     fst (check_data_type CONFIGURATION_DOUBLE_TYPE it) = Throw e /\
     contains "NORMALIZE_GAS_CONSTANTS" (what e) = false) /\
  (exists e,
     fst (set_from_json literal_text (JInteger 1) it) = Throw e /\
     contains "NORMALIZE_GAS_CONSTANTS" (what e) = false) /\
  (exists e,
     fst (get_item NORMALIZE_GAS_CONSTANTS cfg) = Throw e /\
     contains "NORMALIZE_GAS_CONSTANTS" (what e) = false).
Proof.
  cbn zeta. split; [ reflexivity | ].
  repeat split; eexists; split; reflexivity.
Qed.

(** C8 on a bool item read as a double, on a registry without
    [SAVE_RAW_TABLES], and on a double item given the JSON value [true]. *)
Lemma messages_are_key_independent_witness :
  let flag := ConfigurationItem_bool NORMALIZE_GAS_CONSTANTS true in
  let size := ConfigurationItem_double MAXIMUM_TABLE_DIRECTORY_SIZE_IN_GB 1.0 in
  let pressure := ConfigurationItem_double PHASE_ENVELOPE_STARTING_PRESSURE_PA 100.0 in
  let cfg := mk_configuration (delete SAVE_RAW_TABLES (get_items Configuration_new)) in
  thrown (fst (check_data_type CONFIGURATION_DOUBLE_TYPE flag))
    = Some (mk_exception ValueError "type does not match") /\
  thrown (fst (get_item SAVE_RAW_TABLES cfg))
    = Some (mk_exception ValueError "invalid item") /\
  thrown (fst (set_from_json literal_text (JBool true) size))
    = thrown (fst (set_from_json literal_text (JBool true) pressure)) /\
  thrown (fst (set_from_json literal_text (JBool true) size))
    = Some (mk_exception ValueError
              "Input [true] is not double (or something that can be cast to double)").
Proof.
  intros flag size pressure cfg.
  pose proof (messages_are_key_independent literal_text) as (H1 & H2 & _ & H4 & _ & H6).
  assert (Ht : CONFIGURATION_DOUBLE_TYPE <> type flag) by discriminate.
  assert (Hk : items cfg !! SAVE_RAW_TABLES = None) by reflexivity.
  split; [ exact (H1 CONFIGURATION_DOUBLE_TYPE flag Ht) | ].
  split; [ exact (H2 cfg SAVE_RAW_TABLES Hk) | ].
  split; [ exact (H4 (JBool true) size pressure eq_refl) | ].
  exact (H6 (JBool true) size eq_refl eq_refl eq_refl).
Defined.

(** C9 on a fresh registry whose [SAVE_RAW_TABLES] was set to [true]:
    adding a default item for that key, and running [set_defaults] again,
    leave the value. *)
Lemma first_insertion_wins_witness :
  let cfg := snd (on_item SAVE_RAW_TABLES (set_bool true) Configuration_new) in
  let modified := ConfigurationItem_bool SAVE_RAW_TABLES true in
  let item := ConfigurationItem_bool SAVE_RAW_TABLES false in
  items cfg !! get_key item = Some modified /\
  (forall k, is_Some (items cfg !! k)) /\
  add_item item cfg = (Return tt, cfg) /\
  items (snd (set_defaults cfg)) !! SAVE_RAW_TABLES = Some modified /\
  set_defaults cfg = (Return tt, cfg).
Proof.
  intros cfg modified item.
  assert (H1 : items cfg !! get_key item = Some modified) by reflexivity.
  assert (H2 : forall k, is_Some (items cfg !! k))
    by (intros k; destruct k; eexists; reflexivity).
  pose proof (first_insertion_wins cfg) as (Hadd & Hkeep & Hall).
  split; [ exact H1 | ]. split; [ exact H2 | ].
  split; [ exact (Hadd item modified H1) | ].
  split; [ exact (proj2 (Hkeep SAVE_RAW_TABLES modified H1)) | exact (Hall H2) ].
Defined.

(** C10 on the item of [MAXIMUM_TABLE_DIRECTORY_SIZE_IN_GB]. *)
Lemma no_integer_setting_witness :
  let it := ConfigurationItem_double MAXIMUM_TABLE_DIRECTORY_SIZE_IN_GB 1.0 in
  fst (get_item MAXIMUM_TABLE_DIRECTORY_SIZE_IN_GB Configuration_new) = Return it /\
  type it <> CONFIGURATION_INTEGER_TYPE.
Proof.
  intros it.
  assert (H : fst (get_item MAXIMUM_TABLE_DIRECTORY_SIZE_IN_GB Configuration_new) = Return it)
    by reflexivity.
  split; [ exact H | ].
  exact (proj1 (proj2 no_integer_setting) MAXIMUM_TABLE_DIRECTORY_SIZE_IN_GB it H).
Defined.
(** ** The further properties on concrete inputs *)

(** X3 on the registry that lost [SAVE_RAW_TABLES], after [set_defaults]
    and a bool write. *)
Lemma items_stay_under_their_keys_witness :
  let cfg := mk_configuration (delete SAVE_RAW_TABLES (get_items Configuration_new)) in
  let cs := [ call_set_defaults; call_write NORMALIZE_GAS_CONSTANTS (write_bool false) ] in
  keyed cfg /\
  keyed (after_calls literal_text cs cfg) /\
  forall it,
    fst (get_item SAVE_RAW_TABLES (after_calls literal_text cs cfg)) = Return it ->
    get_key it = SAVE_RAW_TABLES.
Proof.
  intros cfg cs.
  assert (Hk : keyed cfg).
  { intros k it. destruct k; vm_compute; intros [= <-]; reflexivity. }
  destruct (items_stay_under_their_keys literal_text cs cfg Hk) as (H1 & _ & H3).
  split; [ exact Hk | ]. split; [ exact H1 | exact (H3 SAVE_RAW_TABLES) ].
Defined.

(** X4 on the empty map. *)
Lemma add_item_then_get_item_witness :
  let cfg := mk_configuration ∅ in
  let item := ConfigurationItem_bool SAVE_RAW_TABLES true in
  items cfg !! get_key item = None /\
  get_item (get_key item) (snd (add_item item cfg)) = (Return item, snd (add_item item cfg)).
Proof.
  intros cfg item.
  assert (H : items cfg !! get_key item = None) by reflexivity.
  split; [ exact H | exact (proj1 (add_item_then_get_item cfg item) H) ].
Defined.

(** X6 on a double item that took the JSON integer 7. *)
Lemma tag_selects_active_member_witness :
  let it := snd (set_from_json literal_text (JInteger 7)
                   (ConfigurationItem_double MAXIMUM_TABLE_DIRECTORY_SIZE_IN_GB 1.0)) in
  constructed literal_text it /\
  exists d, scalars it = active_v_double d.
Proof.
  intros it.
  assert (Hc : constructed literal_text it)
    by (apply after_set_from_json; apply made_double).
  split; [ exact Hc | exact (tag_selects_active_member literal_text it Hc) ].
Defined.

(** X7 on a string item. *)
Lemma no_undefined_behaviour_witness :
  let it := ConfigurationItem_string ALTERNATIVE_REFPROP_PATH "/opt/refprop" in
  constructed literal_text it /\
  fst (run_read read_string it) <> Undefined /\
  fst (run_read read_bool it) <> Undefined /\
  fst (add_to_json it (JObject [])) = Return tt.
Proof.
  intros it.
  assert (Hc : constructed literal_text it) by apply made_string.
  destruct (proj2 (proj2 (no_undefined_behaviour literal_text it)) Hc) as [Hr Ha].
  split; [ exact Hc | ]. split; [ exact (Hr read_string) | ].
  split; [ exact (Hr read_bool) | exact (Ha []) ].
Defined.

(** X8 on a double item with the JSON integer 2, a string item with a
    text that holds a NUL, and a double item with a JSON string. *)
Lemma import_then_read_and_export_witness :
  let size := ConfigurationItem_double MAXIMUM_TABLE_DIRECTORY_SIZE_IN_GB 1.0 in
  let path := ConfigurationItem_cstring ALTERNATIVE_REFPROP_PATH EmptyString in
  imported (type size) (JInteger 2) = Some (double_value 2.0) /\
  imported (type path) (JString text_with_nul) = Some (string_value "a") /\
  imported (type size) (JString "2") = None /\
  (exists size',
     set_from_json literal_text (JInteger 2) size = (Return tt, size') /\
     run_read read_double size' = (Return (double_value 2.0), size') /\
     add_to_json size' (JObject [])
       = (Return tt, JObject [("MAXIMUM_TABLE_DIRECTORY_SIZE_IN_GB"%string, JDouble 2.0)])) /\
  (exists path',
     set_from_json literal_text (JString text_with_nul) path = (Return tt, path') /\
     run_read read_string path' = (Return (string_value "a"), path')) /\
  (exists e, kind e = ValueError /\
     set_from_json literal_text (JString "2") size = (Throw e, size)).
Proof.
  intros size path.
  assert (H1 : imported (type size) (JInteger 2) = Some (double_value 2.0)) by reflexivity.
  assert (H2 : imported (type path) (JString text_with_nul) = Some (string_value "a"))
    by reflexivity.
  assert (H3 : imported (type size) (JString "2") = None) by reflexivity.
  split; [ exact H1 | ]. split; [ exact H2 | ]. split; [ exact H3 | ].
  split; [ | split ].
  - destruct (proj1 (import_then_read_and_export literal_text size (JInteger 2)) _ H1)
      as (size' & Hset & Hread & Hadd).
    exists size'. split; [ exact Hset | ]. split; [ exact (Hread read_double eq_refl) | ].
    exact (Hadd []).
  - destruct (proj1 (import_then_read_and_export literal_text path (JString text_with_nul)) _ H2)
      as (path' & Hset & Hread & _).
    exists path'. split; [ exact Hset | exact (Hread read_string eq_refl) ].
  - exact (proj2 (import_then_read_and_export literal_text size (JString "2")) H3).
Defined.

(** X9 on a string item that took a JSON string with a NUL in it. *)
Lemma imported_value_round_trips_witness :
  let it := ConfigurationItem_cstring ALTERNATIVE_TABLES_DIRECTORY EmptyString in
  let it' := ConfigurationItem_string ALTERNATIVE_TABLES_DIRECTORY "a" in
  set_from_json literal_text (JString text_with_nul) it = (Return tt, it') /\
  exists v,
    add_to_json it' (JObject []) =
      (Return tt, JObject [(config_key_to_string (key it'), v)]) /\
    set_from_json literal_text v it' = (Return tt, it') /\
    set_from_json literal_text v it = (Return tt, it').
Proof.
  intros it it'.
  assert (H : set_from_json literal_text (JString text_with_nul) it = (Return tt, it'))
    by reflexivity.
  split; [ exact H | ].
  exact (imported_value_round_trips literal_text it it' (JString text_with_nul) H).
Defined.

(** X10 on a bool item. *)
Lemma last_write_wins_witness :
  let it := ConfigurationItem_bool SAVE_RAW_TABLES false in
  write_type (write_bool true) = write_type (write_bool false) /\
  accepts (type it) (JBool false) = true /\
  snd (run_write (write_bool false) (snd (run_write (write_bool true) it)))
    = snd (run_write (write_bool false) it) /\
  snd (set_from_json literal_text (JBool false)
         (snd (set_from_json literal_text (JBool true) it)))
    = snd (set_from_json literal_text (JBool false) it).
Proof.
  intros it.
  destruct (last_write_wins literal_text it) as [Hw Hj].
  split; [ reflexivity | ]. split; [ reflexivity | ].
  split; [ exact (Hw (write_bool true) (write_bool false) eq_refl) | ].
  exact (Hj (JBool true) (JBool false) eq_refl).
Defined.

(** X11 on a bool item and an object with one member, and on a JSON
    array. *)
Lemma add_to_json_appends_one_member_witness :
  let it := ConfigurationItem_bool SAVE_RAW_TABLES false in
  let val := JObject [("version"%string, JInteger 6)] in
  let val' := JObject [("version"%string, JInteger 6);
                       ("SAVE_RAW_TABLES"%string, JBool false)] in
  add_to_json it val = (Return tt, val') /\
  add_to_json it (JArray []) = (Undefined, JArray []) /\
  constructed literal_text it /\
  (exists members v,
     val = JObject members /\
     val' = JObject (members ++ [(config_key_to_string (key it), v)])) /\
  (exists v,
     (add_to_json it ;; add_to_json it) (JObject [])
       = (Return tt, JObject [ (config_key_to_string (key it), v);
                               (config_key_to_string (key it), v) ])).
Proof.
  intros it val val'.
  assert (H1 : add_to_json it val = (Return tt, val')) by reflexivity.
  assert (H2 : add_to_json it (JArray []) = (Undefined, JArray [])) by reflexivity.
  assert (Hc : constructed literal_text it) by apply made_bool.
  split; [ exact H1 | ]. split; [ exact H2 | ]. split; [ exact Hc | ].
  split.
  - exact (proj1 (add_to_json_appends_one_member literal_text it val) val' H1).
  - exact (proj2 (proj2 (add_to_json_appends_one_member literal_text it val)) Hc []).
Defined.

(** X12 on [SAVE_RAW_TABLES]. *)
Lemma key_names_are_one_to_one_witness :
  config_key_to_string SAVE_RAW_TABLES = config_key_to_string SAVE_RAW_TABLES /\
  SAVE_RAW_TABLES = SAVE_RAW_TABLES /\
  config_key_to_string SAVE_RAW_TABLES <> EmptyString.
Proof.
  destruct key_names_are_one_to_one as (_ & _ & Hname & Hinj).
  assert (H1 : config_key_to_string SAVE_RAW_TABLES = config_key_to_string SAVE_RAW_TABLES)
    by reflexivity.
  split; [ exact H1 | ].
  split; [ exact (Hinj SAVE_RAW_TABLES SAVE_RAW_TABLES H1) | ].
  exact (proj1 (proj2 (Hname SAVE_RAW_TABLES))).
Defined.

(** X13 on a double item with the JSON integer 3000000000, and on an
    integer item with the JSON double 2.0. *)
Lemma integer_outside_int_is_refused_witness :
  let size := ConfigurationItem_double MAXIMUM_TABLE_DIRECTORY_SIZE_IN_GB 1.0 in
  let count := ConfigurationItem_int SAVE_RAW_TABLES 1 in
  ~ int_range 3000000000 /\
  (type size = CONFIGURATION_INTEGER_TYPE \/ type size = CONFIGURATION_DOUBLE_TYPE) /\
  type count = CONFIGURATION_INTEGER_TYPE /\
  (exists e, kind e = ValueError /\
     set_from_json literal_text (JInteger 3000000000) size = (Throw e, size)) /\
  set_from_json literal_text (JDouble 2.0) count
    = (Throw (mk_exception ValueError "Input is not integer"), count).
Proof.
  intros size count.
  assert (H1 : ~ int_range 3000000000) by (unfold int_range, INT_MIN, INT_MAX; lia).
  assert (H2 : type size = CONFIGURATION_INTEGER_TYPE \/ type size = CONFIGURATION_DOUBLE_TYPE)
    by (right; reflexivity).
  split; [ exact H1 | ]. split; [ exact H2 | ]. split; [ reflexivity | ].
  split.
  - exact (proj1 (integer_outside_int_is_refused literal_text size) 3000000000 H1 H2).
  - exact (proj2 (integer_outside_int_is_refused literal_text count) 2.0%float eq_refl).
Defined.

(** X14 on a fresh registry with a double written to a bool key, and on
    the registry that lost [SAVE_RAW_TABLES]. *)
Lemma failed_registry_update_changes_nothing_witness :
  let fresh := Configuration_new in
  let cfg := mk_configuration (delete SAVE_RAW_TABLES (get_items Configuration_new)) in
  let mismatch := mk_exception ValueError "type does not match" in
  let refused := mk_exception ValueError "Input is not boolean" in
  fst (on_item SAVE_RAW_TABLES (run_write (write_double 1.5)) fresh) = Throw mismatch /\
  fst (on_item SAVE_RAW_TABLES (set_from_json literal_text (JInteger 1)) fresh)
    = Throw refused /\
  items cfg !! SAVE_RAW_TABLES = None /\
  snd (on_item SAVE_RAW_TABLES (run_write (write_double 1.5)) fresh) = fresh /\
  snd (on_item SAVE_RAW_TABLES (set_from_json literal_text (JInteger 1)) fresh) = fresh /\
  on_item SAVE_RAW_TABLES (run_write (write_bool true)) cfg
    = (Throw (mk_exception ValueError "invalid item"), cfg).
Proof.
  intros fresh cfg mismatch refused.
  assert (H1 : fst (on_item SAVE_RAW_TABLES (run_write (write_double 1.5)) fresh)
               = Throw mismatch) by (vm_compute; reflexivity).
  assert (H2 : fst (on_item SAVE_RAW_TABLES (set_from_json literal_text (JInteger 1)) fresh)
               = Throw refused) by (vm_compute; reflexivity).
  assert (H3 : items cfg !! SAVE_RAW_TABLES = None) by (vm_compute; reflexivity).
  split; [ exact H1 | ]. split; [ exact H2 | ]. split; [ exact H3 | ].
  split; [ | split ].
  - exact (proj1 (failed_registry_update_changes_nothing literal_text fresh
                    SAVE_RAW_TABLES mismatch) (write_double 1.5) H1).
  - exact (proj1 (proj2 (failed_registry_update_changes_nothing literal_text fresh
                           SAVE_RAW_TABLES refused)) (JInteger 1) H2).
  - exact (proj1 (proj2 (proj2 (failed_registry_update_changes_nothing literal_text cfg
                                  SAVE_RAW_TABLES mismatch)) H3 (write_bool true) JNull)).
Defined.

(** X15 on a fresh registry: a write to [SAVE_RAW_TABLES] and the entry
    of [NORMALIZE_GAS_CONSTANTS]. *)
Lemma calls_keep_keys_and_other_items_witness :
  let cfg := Configuration_new in
  SAVE_RAW_TABLES <> NORMALIZE_GAS_CONSTANTS /\
  is_Some (items cfg !! NORMALIZE_GAS_CONSTANTS) /\
  is_Some (items (snd (run_call literal_text call_set_defaults cfg))
             !! NORMALIZE_GAS_CONSTANTS) /\
  items (snd (on_item SAVE_RAW_TABLES (run_write (write_bool true)) cfg))
    !! NORMALIZE_GAS_CONSTANTS = items cfg !! NORMALIZE_GAS_CONSTANTS.
Proof.
  intros cfg.
  assert (H1 : SAVE_RAW_TABLES <> NORMALIZE_GAS_CONSTANTS) by discriminate.
  assert (H2 : is_Some (items cfg !! NORMALIZE_GAS_CONSTANTS))
    by (eexists; vm_compute; reflexivity).
  destruct (calls_keep_keys_and_other_items literal_text cfg SAVE_RAW_TABLES
              NORMALIZE_GAS_CONSTANTS (write_bool true) JNull) as (Hkeep & Hother & _).
  split; [ exact H1 | ]. split; [ exact H2 | ].
  split; [ exact (Hkeep call_set_defaults H2) | exact (proj1 (Hother H1)) ].
Defined.

(** X17 on [MAXIMUM_TABLE_DIRECTORY_SIZE_IN_GB] after an import of the
    JSON integer 2 and a refused bool write. *)
Lemma registry_typing_is_permanent_witness :
  let k := MAXIMUM_TABLE_DIRECTORY_SIZE_IN_GB in
  let e := X MAXIMUM_TABLE_DIRECTORY_SIZE_IN_GB "MAXIMUM_TABLE_DIRECTORY_SIZE_IN_GB"
             (default_double 1.0)
             "The maximum allowed size of the directory that is used to store tabular data" in
  let cs := [ call_set_from_json k (JInteger 2); call_write k (write_bool true) ] in
  let cfg := after_calls literal_text cs Configuration_new in
  entry_of k = Some e /\
  write_type (write_double 3.5) = default_type (Default e) /\
  write_type (write_bool true) <> default_type (Default e) /\
  fst (on_item k (run_write (write_double 3.5)) cfg) = Return tt /\
  fst (on_item k (run_read read_double) (snd (on_item k (run_write (write_double 3.5)) cfg)))
    = Return (double_value 3.5) /\
  on_item k (run_write (write_bool true)) cfg
    = (Throw (mk_exception ValueError "type does not match"), cfg) /\
  (exists x, on_item k (run_read read_double) cfg = (Return x, cfg)).
Proof.
  intros k e cs cfg.
  assert (He : entry_of k = Some e) by reflexivity.
  assert (H1 : write_type (write_double 3.5) = default_type (Default e)) by reflexivity.
  assert (H2 : write_type (write_bool true) <> default_type (Default e)) by discriminate.
  destruct (registry_typing_is_permanent literal_text cs k e He) as [Hw Hr].
  split; [ exact He | ]. split; [ exact H1 | ]. split; [ exact H2 | ].
  split; [ exact (proj1 (proj1 (Hw (write_double 3.5)) H1)) | ].
  split; [ exact (proj2 (proj1 (Hw (write_double 3.5)) H1) read_double eq_refl) | ].
  split; [ exact (proj2 (Hw (write_bool true)) H2) | ].
  exact (proj1 (Hr read_double) eq_refl).
Defined.

End CoolProp.
